(** * GeminiX: the web adapter over the generative-AI SDK

    A shallow embedding of [src/GeminiX.ts].  The class [GeminiX] keeps three
    static handles ([generativeAI], [model], [chat]) and forwards each public
    method to the SDK after translating its arguments.  The SDK is an external
    collaborator: it is a parameter of the development (a record of oracles
    over an abstract SDK state), never a definition of ours. *)

From Stdlib Require Import String List Bool.
Import ListNotations.
Open Scope string_scope.

Set Implicit Arguments.

(** ** Public string enums

    A TypeScript string enum is its string value at run time, and both mapping
    functions are reached through [as any] casts, so the members are string
    constants and the functions take arbitrary strings. *)

Module SafetySettingLevel.
Definition NONE := "NONE".
Definition ONLY_HIGH := "ONLY_HIGH".
Definition MEDIUM_AND_ABOVE := "MEDIUM_AND_ABOVE".
Definition LOW_AND_ABOVE := "LOW_AND_ABOVE".
Definition UNSPECIFIED := "UNSPECIFIED".
End SafetySettingLevel.

Module SafetySettingHarmCategory.
Definition HARASSMENT := "HARASSMENT".
Definition HATE_SPEECH := "HATE_SPEECH".
Definition SEXUALLY_EXPLICIT := "SEXUALLY_EXPLICIT".
Definition DANGEROUS_CONTENT := "DANGEROUS_CONTENT".
Definition UNSPECIFIED := "UNSPECIFIED".
End SafetySettingHarmCategory.

(** ** SDK enums

    Declared by the SDK package, not by this repository.  [HarmCategory] has
    the five members the source names; [HarmBlockThreshold] has the four the
    source names and [BLOCK_LOW_AND_ABOVE], which the source never mentions. *)

Inductive HarmCategory : Type :=
| HARM_CATEGORY_UNSPECIFIED
| HARM_CATEGORY_HATE_SPEECH
| HARM_CATEGORY_SEXUALLY_EXPLICIT
| HARM_CATEGORY_HARASSMENT
| HARM_CATEGORY_DANGEROUS_CONTENT.

Inductive HarmBlockThreshold : Type :=
| HARM_BLOCK_THRESHOLD_UNSPECIFIED
| BLOCK_LOW_AND_ABOVE
| BLOCK_MEDIUM_AND_ABOVE
| BLOCK_ONLY_HIGH
| BLOCK_NONE.

(** ** Internal methods *)

(** [GeminiX.mapHarmCategory]: a [switch] on the string, with a [default]. *)
Definition mapHarmCategory (harmCategory : string) : HarmCategory :=
  if harmCategory =? SafetySettingHarmCategory.HARASSMENT then
    HARM_CATEGORY_HARASSMENT
  else if harmCategory =? SafetySettingHarmCategory.HATE_SPEECH then
    HARM_CATEGORY_HATE_SPEECH
  else if harmCategory =? SafetySettingHarmCategory.SEXUALLY_EXPLICIT then
    HARM_CATEGORY_SEXUALLY_EXPLICIT
  else if harmCategory =? SafetySettingHarmCategory.DANGEROUS_CONTENT then
    HARM_CATEGORY_DANGEROUS_CONTENT
  else if harmCategory =? SafetySettingHarmCategory.UNSPECIFIED then
    HARM_CATEGORY_UNSPECIFIED
  else
    HARM_CATEGORY_UNSPECIFIED.

(** [GeminiX.mapSafetySettingLevel].  The argument is read out of the
    [SafetySettings] object, whose keys are optional: [None] is [undefined],
    which matches no [case] and takes the [default]. *)
Definition mapSafetySettingLevel (safetySettingLevel : option string)
  : HarmBlockThreshold :=
  match safetySettingLevel with
  | None => HARM_BLOCK_THRESHOLD_UNSPECIFIED
  | Some l =>
      if l =? SafetySettingLevel.NONE then
        BLOCK_NONE
      else if l =? SafetySettingLevel.ONLY_HIGH then
        BLOCK_ONLY_HIGH
      else if l =? SafetySettingLevel.MEDIUM_AND_ABOVE then
        BLOCK_MEDIUM_AND_ABOVE
      else if l =? SafetySettingLevel.LOW_AND_ABOVE then
        BLOCK_MEDIUM_AND_ABOVE
      else if l =? SafetySettingLevel.UNSPECIFIED then
        HARM_BLOCK_THRESHOLD_UNSPECIFIED
      else
        HARM_BLOCK_THRESHOLD_UNSPECIFIED
  end.

(** ** Data model

    One module per interface of the source, so that fields keep their names
    ([Part.text], [Content.role], ...).  An optional field [f?: T] is an
    [option T]; [None] is [undefined]. *)

Module GenerativeContentBlob.
Record t : Type := mk { mimeType : string; data : string }.
End GenerativeContentBlob.

(** The SDK's [Part], as the code reads it: an object on which [text] and
    [inlineData] may each be there or not. *)
Module Part.
Record t : Type := mk {
    text : option string;
    inlineData : option GenerativeContentBlob.t
  }.
End Part.

(** The SDK's [Content]; the code builds its [InputContent] values with a
    [Part[]] as well, so one record serves for both. *)
Module Content.
Record t : Type := mk { role : string; parts : list Part.t }.
End Content.

(** An element of the array handed to the SDK: [string | Part]. *)
Inductive RequestItem : Type :=
| Str (s : string)
| Prt (part : Part.t).

(** The two shapes [model.countTokens] is called with. *)
Inductive CountTokensRequest : Type :=
| Items (request : list RequestItem)
| Contents (contents : list Content.t).

Module StartChatParams.
Record t : Type := mk { history : list Content.t }.
End StartChatParams.

Module SafetySetting.
Record t : Type := mk {
    category : HarmCategory;
    threshold : HarmBlockThreshold
  }.
End SafetySetting.

Module GenerationConfig.
Record t (number : Type) : Type := mk {
    temperature : option number;
    topK : option number;
    topP : option number;
    maxOutputTokens : option number;
    stopSequences : option (list string)
  }.
End GenerationConfig.

(** The argument of the SDK's [getGenerativeModel]. *)
Module GenerativeModelParams.
Record t (number : Type) : Type := mk {
    model : string;
    safetySettings : list SafetySetting.t;
    generationConfig : GenerationConfig.t number
  }.
End GenerativeModelParams.

(** [SafetySettings] is an object keyed by harm category; it is kept as the
    list of its own properties in [for ... in] order. *)
Definition SafetySettings : Type := list (string * option string).

Module ModelParams.
Record t (number : Type) : Type := mk {
    modelName : string;
    apiKey : string;
    temperature : option number;
    topK : option number;
    topP : option number;
    maxOutputTokens : option number;
    stopSequences : option (list string);
    safetySettings : option SafetySettings
  }.
End ModelParams.

Module ChatHistoryItem.
Record t : Type := mk {
    isUser : bool;
    text : option string;
    images : option (list GenerativeContentBlob.t)
  }.
End ChatHistoryItem.

Module ModelChatHistoryPart.
Record t : Type := mk { type : string; content : string }.
End ModelChatHistoryPart.

Module ModelChatHistoryItem.
Record t : Type := mk {
    isUser : bool;
    parts : list ModelChatHistoryPart.t
  }.
End ModelChatHistoryItem.

(** A callback runs in the caller's state [U] and may throw an [E]. *)
Module SendMessageOptions.
Record t (U E : Type) : Type := mk {
    images : option (list GenerativeContentBlob.t);
    onResponseChunk : option (string -> U -> (E + unit) * U)
  }.
End SendMessageOptions.

Module CountTokensOptions.
Record t : Type := mk { images : option (list GenerativeContentBlob.t) }.
End CountTokensOptions.

Module CountChatTokensOptions.
Record t : Type := mk {
    inputText : option string;
    images : option (list GenerativeContentBlob.t)
  }.
End CountChatTokensOptions.

(** ** JavaScript idioms used by the source *)

(** Truthiness of a possibly-undefined string: [undefined] and [""] are falsy. *)
Definition truthy (s : option string) : bool :=
  match s with
  | Some s => negb (s =? "")
  | None => false
  end.

(** [a || b] on possibly-undefined strings. *)
Definition or_else (a b : option string) : option string :=
  if truthy a then a else b.

(** [a || d] where [d] is a string literal. *)
Definition or_default (a : option string) (d : string) : string :=
  match a with
  | Some s => if s =? "" then d else s
  | None => d
  end.

(** [arr.push(x)]. *)
Definition push {A : Type} (arr : list A) (x : A) : list A := arr ++ [x].

(** [for (const x of xs) body], the loop state passed along. *)
Definition for_of {A S : Type} (xs : list A) (body : S -> A -> S) (s : S) : S :=
  fold_left body xs s.

(** [images || []] (an array is always truthy). *)
Definition or_empty {A : Type} (xs : option (list A)) : list A :=
  match xs with
  | Some l => l
  | None => []
  end.

(** ** The adapter over an arbitrary SDK *)

Section Adapter.

Variable V : Type.        (* state of the SDK and of the service behind it *)
Variable U : Type.        (* state of the caller, seen by its callbacks *)
Variable E : Type.        (* what the SDK or a callback may throw *)
Variable Client : Type.   (* GoogleGenerativeAI *)
Variable Model : Type.    (* GenerativeModel *)
Variable Chat : Type.     (* ChatSession *)
Variable number : Type.   (* JavaScript numbers, only passed along *)

(** What a method may throw: [new Error(message)] raised by this module, or
    a foreign value raised by the SDK or by a callback and left alone. *)
Inductive Exception : Type :=
| Error (message : string)
| Foreign (e : E).

Definition NotInitializedError : Exception := Error "Model not initialized".
Definition ChatNotInitializedError : Exception := Error "Chat not initialized".

(** How the promise of an [async] method settles. *)
Inductive Outcome (A : Type) : Type :=
| Resolved (a : A)
| Rejected (x : Exception).
Arguments Rejected {A} x.

(** An SDK call: it may throw, and it may change the SDK's state. *)
Definition Vendor (A : Type) : Type := V -> (E + A) * V.

(** [EnhancedGenerateContentResponse], of which the code only calls [text()]:
    the text, or what [text()] throws. *)
Definition Response : Type := (E + string)%type.

(** The async iterable [result.stream], as the sequence it delivers: chunks,
    then either the end of the stream or an exception. *)
Inductive Stream : Type :=
| Done
| Next (chunk : Response) (rest : Stream)
| Abort (e : E).

Record SDK : Type := {
  new_GoogleGenerativeAI : string -> Vendor Client;
  ai_getGenerativeModel : Client -> GenerativeModelParams.t number -> Vendor Model;
  model_generateContent : Model -> list RequestItem -> Vendor Response;
  model_generateContentStream : Model -> list RequestItem -> Vendor Stream;
  model_countTokens : Model -> CountTokensRequest -> Vendor number;
  model_startChat : Model -> StartChatParams.t -> Vendor Chat;
  chat_sendMessage : Chat -> list RequestItem -> Vendor Response;
  chat_sendMessageStream : Chat -> list RequestItem -> Vendor Stream;
  chat_getHistory : Chat -> Vendor (list Content.t)
}.

Variable sdk : SDK.

(** What crosses the module's boundary, in order: each SDK call with its
    arguments and each invocation of the caller's callback.  The trace is
    ghost state: the code never reads it. *)
Inductive Event : Type :=
| NewGoogleGenerativeAI (apiKey : string)
| GetGenerativeModel (ai : Client) (params : GenerativeModelParams.t number)
| GenerateContent (m : Model) (request : list RequestItem)
| GenerateContentStream (m : Model) (request : list RequestItem)
| CountTokens (m : Model) (request : CountTokensRequest)
| StartChat (m : Model) (params : StartChatParams.t)
| ChatSendMessage (c : Chat) (request : list RequestItem)
| ChatSendMessageStream (c : Chat) (request : list RequestItem)
| ChatGetHistory (c : Chat)
| ResponseChunk (responseTextChunk : string).

(** The three static fields of [GeminiX], with the state of its surroundings. *)
Record World : Type := {
  generativeAI : option Client;
  model : option Model;
  chat : option Chat;
  sdk_state : V;
  caller : U;
  trace : list Event
}.

Definition initial (v : V) (u : U) : World :=
  {| generativeAI := None; model := None; chat := None;
     sdk_state := v; caller := u; trace := [] |}.

(** *** State and exception monad *)

Definition M (A : Type) : Type := World -> Outcome A * World.

Definition ret {A : Type} (a : A) : M A := fun w => (Resolved a, w).

Definition throw {A : Type} (x : Exception) : M A := fun w => (Rejected x, w).

Definition bind {A B : Type} (c : M A) (k : A -> M B) : M B :=
  fun w =>
    match c w with
    | (Resolved a, w') => k a w'
    | (Rejected x, w') => (Rejected x, w')
    end.

Notation "x <- c ;; k" := (bind c (fun x => k))
  (at level 61, c at next level, right associativity).
Notation "c ;;; k" := (bind c (fun _ => k))
  (at level 61, right associativity).

Definition set_generativeAI (ai : Client) : M unit :=
  fun w => (Resolved tt,
            {| generativeAI := Some ai; model := model w; chat := chat w;
               sdk_state := sdk_state w; caller := caller w; trace := trace w |}).

Definition set_model (m : Model) : M unit :=
  fun w => (Resolved tt,
            {| generativeAI := generativeAI w; model := Some m; chat := chat w;
               sdk_state := sdk_state w; caller := caller w; trace := trace w |}).

Definition set_chat (c : Chat) : M unit :=
  fun w => (Resolved tt,
            {| generativeAI := generativeAI w; model := model w; chat := Some c;
               sdk_state := sdk_state w; caller := caller w; trace := trace w |}).

(** The world after an SDK call or a callback: the event is recorded and the
    state it ran in is replaced. *)
Definition after_call (ev : Event) (v : V) (w : World) : World :=
  {| generativeAI := generativeAI w; model := model w; chat := chat w;
     sdk_state := v; caller := caller w; trace := trace w ++ [ev] |}.

Definition after_callback (ev : Event) (u : U) (w : World) : World :=
  {| generativeAI := generativeAI w; model := model w; chat := chat w;
     sdk_state := sdk_state w; caller := u; trace := trace w ++ [ev] |}.

(** [await sdkCall(...)]: an exception of the SDK rejects the method's
    promise with that very exception. *)
Definition await {A : Type} (ev : Event) (call : Vendor A) : M A :=
  fun w =>
    match call (sdk_state w) with
    | (inr a, v) => (Resolved a, after_call ev v w)
    | (inl e, v) => (Rejected (Foreign e), after_call ev v w)
    end.

(** [response.text()] and [chunk.text()]. *)
Definition text (response : Response) : M string :=
  match response with
  | inr s => ret s
  | inl e => throw (Foreign e)
  end.

(** [options?.onResponseChunk?.(chunkText)]. *)
Definition notify (options : option (SendMessageOptions.t U E))
  (chunkText : string) : M unit :=
  match options with
  | None => ret tt
  | Some o =>
      match SendMessageOptions.onResponseChunk o with
      | None => ret tt
      | Some onResponseChunk =>
          fun w =>
            match onResponseChunk chunkText (caller w) with
            | (inr _, u) =>
                (Resolved tt, after_callback (ResponseChunk chunkText) u w)
            | (inl e, u) =>
                (Rejected (Foreign e),
                 after_callback (ResponseChunk chunkText) u w)
            end
      end
  end.

(** [if(!this.model) throw new Error("Model not initialized")]. *)
Definition require_model : M Model :=
  fun w =>
    match model w with
    | Some m => (Resolved m, w)
    | None => (Rejected (Error "Model not initialized"), w)
    end.

(** [if(!this.chat) throw new Error("Chat not initialized")]. *)
Definition require_chat : M Chat :=
  fun w =>
    match chat w with
    | Some c => (Resolved c, w)
    | None => (Rejected (Error "Chat not initialized"), w)
    end.

(** *** Plugin methods *)

(** [GeminiX.initModel]. *)
Definition initModel (params : ModelParams.t number) : M unit :=
  ai <- await (NewGoogleGenerativeAI (ModelParams.apiKey params))
          (new_GoogleGenerativeAI sdk (ModelParams.apiKey params)) ;;
  set_generativeAI ai ;;;
  let safetySettings :=
    match ModelParams.safetySettings params with
    | Some settings =>
        for_of settings
          (fun safetySettings '(harmCategory, harmBlockThreshold) =>
             let modelHarmCategory := mapHarmCategory harmCategory in
             let modelSafetySettingLevel :=
               mapSafetySettingLevel harmBlockThreshold in
             push safetySettings
               {| SafetySetting.category := modelHarmCategory;
                  SafetySetting.threshold := modelSafetySettingLevel |})
          []
    | None => []
    end in
  let modelParams :=
    {| GenerativeModelParams.model := ModelParams.modelName params;
       GenerativeModelParams.safetySettings := safetySettings;
       GenerativeModelParams.generationConfig :=
         {| GenerationConfig.temperature := ModelParams.temperature params;
            GenerationConfig.topK := ModelParams.topK params;
            GenerationConfig.topP := ModelParams.topP params;
            GenerationConfig.maxOutputTokens :=
              ModelParams.maxOutputTokens params;
            GenerationConfig.stopSequences :=
              ModelParams.stopSequences params |} |} in
  m <- await (GetGenerativeModel ai modelParams)
         (ai_getGenerativeModel sdk ai modelParams) ;;
  set_model m.

(** The image loop shared, in the source by repetition, by [sendMessage],
    [countTokens] and [sendChatMessage]. *)
Definition imageParts_of (images : list GenerativeContentBlob.t) : list Part.t :=
  for_of images
    (fun imageParts image =>
       push imageParts {| Part.text := None; Part.inlineData := Some image |})
    [].

(** [[inputText, ...imageParts]]. *)
Definition request_of (inputText : string) (imageParts : list Part.t)
  : list RequestItem :=
  Str inputText :: map Prt imageParts.

(** [for await (const chunk of result.stream) { ... }], with [responseText]
    as the loop state. *)
Fixpoint consume (options : option (SendMessageOptions.t U E))
  (stream : Stream) (responseText : string) : M string :=
  match stream with
  | Done => ret responseText
  | Abort e => throw (Foreign e)
  | Next chunk rest =>
      chunkText <- text chunk ;;
      notify options chunkText ;;;
      consume options rest (responseText ++ chunkText)
  end.

(** [streamResponse] and [imageParts] as [sendMessage] and [sendChatMessage]
    compute them from [options]. *)
Definition streamResponse_of (options : option (SendMessageOptions.t U E))
  : bool :=
  match options with
  | Some o =>
      match SendMessageOptions.onResponseChunk o with
      | Some _ => true
      | None => false
      end
  | None => false
  end.

Definition send_imageParts (options : option (SendMessageOptions.t U E))
  : list Part.t :=
  match options with
  | Some o => imageParts_of (or_empty (SendMessageOptions.images o))
  | None => []
  end.

(** [GeminiX.sendMessage]. *)
Definition sendMessage (inputText : string)
  (options : option (SendMessageOptions.t U E)) : M string :=
  m <- require_model ;;
  let streamResponse := streamResponse_of options in
  let imageParts := send_imageParts options in
  if streamResponse then
    stream <- await (GenerateContentStream m (request_of inputText imageParts))
                (model_generateContentStream sdk m (request_of inputText imageParts)) ;;
    consume options stream ""
  else
    response <- await (GenerateContent m (request_of inputText imageParts))
                  (model_generateContent sdk m (request_of inputText imageParts)) ;;
    text response.

(** [GeminiX.countTokens]. *)
Definition countTokens (inputText : string)
  (options : option CountTokensOptions.t) : M number :=
  m <- require_model ;;
  let imageParts :=
    match options with
    | Some o => imageParts_of (or_empty (CountTokensOptions.images o))
    | None => []
    end in
  await (CountTokens m (Items (request_of inputText imageParts)))
    (model_countTokens sdk m (Items (request_of inputText imageParts))).

(** The body of the loop of [initChat] over [chatHistory]. *)
Definition seed_turn (chatHistoryItem : ChatHistoryItem.t) : Content.t :=
  let parts : list Part.t := [] in
  let parts :=
    if truthy (ChatHistoryItem.text chatHistoryItem) then
      push parts {| Part.text := ChatHistoryItem.text chatHistoryItem;
                    Part.inlineData := None |}
    else parts in
  let parts :=
    match ChatHistoryItem.images chatHistoryItem with
    | Some images =>
        for_of images
          (fun parts image =>
             push parts {| Part.text := None; Part.inlineData := Some image |})
          parts
    | None => parts
    end in
  {| Content.role :=
       if ChatHistoryItem.isUser chatHistoryItem then "user" else "model";
     Content.parts := parts |}.

(** [GeminiX.initChat]. *)
Definition initChat (chatHistory : option (list ChatHistoryItem.t)) : M unit :=
  m <- require_model ;;
  let modelChatHistory :=
    match chatHistory with
    | Some items =>
        for_of items
          (fun modelChatHistory chatHistoryItem =>
             push modelChatHistory (seed_turn chatHistoryItem))
          []
    | None => []
    end in
  let startChatParams := {| StartChatParams.history := modelChatHistory |} in
  c <- await (StartChat m startChatParams) (model_startChat sdk m startChatParams) ;;
  set_chat c.

(** [GeminiX.sendChatMessage]. *)
Definition sendChatMessage (inputText : string)
  (options : option (SendMessageOptions.t U E)) : M string :=
  m <- require_model ;;
  c <- require_chat ;;
  let streamResponse := streamResponse_of options in
  let imageParts := send_imageParts options in
  if streamResponse then
    stream <- await (ChatSendMessageStream c (request_of inputText imageParts))
                (chat_sendMessageStream sdk c (request_of inputText imageParts)) ;;
    consume options stream ""
  else
    response <- await (ChatSendMessage c (request_of inputText imageParts))
                  (chat_sendMessage sdk c (request_of inputText imageParts)) ;;
    text response.

(** [GeminiX.countChatTokens]. *)
Definition countChatTokens (options : option CountChatTokensOptions.t)
  : M number :=
  m <- require_model ;;
  c <- require_chat ;;
  history <- await (ChatGetHistory c) (chat_getHistory sdk c) ;;
  let inputText :=
    match options with
    | Some o => CountChatTokensOptions.inputText o
    | None => None
    end in
  let images :=
    match options with
    | Some o => CountChatTokensOptions.images o
    | None => None
    end in
  let parts : list Part.t := [] in
  let parts :=
    if truthy inputText then
      push parts {| Part.text := inputText; Part.inlineData := None |}
    else parts in
  let parts :=
    match images with
    | Some images =>
        for_of images
          (fun parts image =>
             push parts {| Part.text := None; Part.inlineData := Some image |})
          parts
    | None => parts
    end in
  let userHistory : list Content.t := [] in
  let userHistory :=
    if Nat.ltb 0 (length parts) then
      push userHistory {| Content.role := "user"; Content.parts := parts |}
    else userHistory in
  let contents := (history ++ userHistory)%list in
  await (CountTokens m (Contents contents))
    (model_countTokens sdk m (Contents contents)).

(** The body of the inner loop of [getChatHistory]. *)
Definition history_part (part : Part.t) : ModelChatHistoryPart.t :=
  {| ModelChatHistoryPart.type :=
       match Part.inlineData part with
       | Some inlineData =>
           or_default (Some (GenerativeContentBlob.mimeType inlineData)) "image"
       | None => "text"
       end;
     ModelChatHistoryPart.content :=
       or_default
         (or_else (Part.text part)
            (option_map GenerativeContentBlob.data (Part.inlineData part)))
         "" |}.

(** The body of the outer loop of [getChatHistory]. *)
Definition history_item (content : Content.t) : ModelChatHistoryItem.t :=
  {| ModelChatHistoryItem.isUser := Content.role content =? "user";
     ModelChatHistoryItem.parts :=
       for_of (Content.parts content)
         (fun parts part => push parts (history_part part))
         [] |}.

(** [GeminiX.getChatHistory]. *)
Definition getChatHistory : M (list ModelChatHistoryItem.t) :=
  m <- require_model ;;
  c <- require_chat ;;
  history <- await (ChatGetHistory c) (chat_getHistory sdk c) ;;
  let chatHistory :=
    for_of history
      (fun chatHistory content => push chatHistory (history_item content))
      [] in
  ret chatHistory.

(** *** The public surface as one step function *)

(** A call of a public method with its arguments. *)
Inductive Call : Type :=
| InitModel (params : ModelParams.t number)
| SendMessage (inputText : string) (options : option (SendMessageOptions.t U E))
| CountTokensOf (inputText : string) (options : option CountTokensOptions.t)
| InitChat (chatHistory : option (list ChatHistoryItem.t))
| SendChatMessage (inputText : string)
    (options : option (SendMessageOptions.t U E))
| CountChatTokens (options : option CountChatTokensOptions.t)
| GetChatHistory.

(** What the promise of a call resolves to. *)
Inductive Value : Type :=
| Void
| Text (s : string)
| Count (n : number)
| History (h : list ModelChatHistoryItem.t).

Definition perform (call : Call) : M Value :=
  match call with
  | InitModel params => initModel params ;;; ret Void
  | SendMessage inputText options =>
      s <- sendMessage inputText options ;; ret (Text s)
  | CountTokensOf inputText options =>
      n <- countTokens inputText options ;; ret (Count n)
  | InitChat chatHistory => initChat chatHistory ;;; ret Void
  | SendChatMessage inputText options =>
      s <- sendChatMessage inputText options ;; ret (Text s)
  | CountChatTokens options =>
      n <- countChatTokens options ;; ret (Count n)
  | GetChatHistory => h <- getChatHistory ;; ret (History h)
  end.

(** A host performs calls one after the other, whether they fail or not. *)
Definition run (calls : list Call) (w : World) : World :=
  fold_left (fun w call => snd (perform call w)) calls w.

(** The state invariant: a conversation handle only with a model handle. *)
Definition handles_ok (w : World) : bool :=
  match chat w with
  | Some _ => match model w with Some _ => true | None => false end
  | None => true
  end.

(** The three handles of a world. *)
Definition handles (w : World) : option Client * option Model * option Chat :=
  (generativeAI w, model w, chat w).

(** A computation that never rejects with an [Error] of this module: when it
    fails, it fails with what the SDK or the callback threw. *)
Definition foreign_only {A : Type} (c : M A) : Prop :=
  forall (w : World) (message : string),
    fst (c w) <> Rejected (Error message).

(** A computation that leaves the three handles as they are. *)
Definition keeps_handles {A : Type} (c : M A) : Prop :=
  forall w : World, handles (snd (c w)) = handles w.

(** *** What a stream delivers *)

(** The texts of the chunks up to the first failure, and whether the stream
    ends without failure. *)
Fixpoint received (stream : Stream) : list string :=
  match stream with
  | Next (inr chunkText) rest => chunkText :: received rest
  | _ => []
  end.

Fixpoint succeeds (stream : Stream) : bool :=
  match stream with
  | Done => true
  | Next (inr _) rest => succeeds rest
  | _ => false
  end.

(** The caller's state after its callback ran on each text in turn, if it
    never threw. *)
Fixpoint accepts (onResponseChunk : string -> U -> (E + unit) * U)
  (texts : list string) (u : U) : option U :=
  match texts with
  | [] => Some u
  | chunkText :: rest =>
      match onResponseChunk chunkText u with
      | (inr _, u') => accepts onResponseChunk rest u'
      | (inl _, _) => None
      end
  end.

(** What a streaming call owes its caller, for a call that started in [w],
    began with the SDK call [request] that returned [stream], and ended as
    [r]: the callback was invoked on an initial segment of the chunks, in
    order and once each, and on all of them if the promise resolved; the
    promise resolves to the concatenation of all chunk texts; and it does
    resolve whenever the stream ends well and the callback never throws. *)
Definition streams_in_order (request : Event)
  (onResponseChunk : string -> U -> (E + unit) * U) (stream : Stream)
  (w : World) (r : Outcome string * World) : Prop :=
  (exists invoked later,
      received stream = (invoked ++ later)%list
      /\ trace (snd r) = (trace w ++ request :: map ResponseChunk invoked)%list
      /\ (forall s, fst r = Resolved s -> later = []))
  /\ (forall s, fst r = Resolved s ->
        s = String.concat "" (received stream)
        /\ succeeds stream = true
        /\ accepts onResponseChunk (received stream) (caller w)
           = Some (caller (snd r)))
  /\ (succeeds stream = true ->
      accepts onResponseChunk (received stream) (caller w) <> None ->
      fst r = Resolved (String.concat "" (received stream))).

(** The exception that ends a stream, if one does: thrown by the iterator,
    or by [text()] on a chunk. *)
Fixpoint failure (stream : Stream) : option E :=
  match stream with
  | Done => None
  | Abort e => Some e
  | Next (inl e) _ => Some e
  | Next (inr _) rest => failure rest
  end.

(** A streaming call that started in [w] with the SDK call [request] and
    ended as [r] rejected with the foreign exception [e], after invoking the
    callback on exactly the texts [invoked], in order, which left the caller
    in state [u]. *)
Definition rejects_after (request : Event) (e : E) (invoked : list string)
  (u : U) (w : World) (r : Outcome string * World) : Prop :=
  fst r = Rejected (Foreign e)
  /\ trace (snd r) = (trace w ++ request :: map ResponseChunk invoked)%list
  /\ caller (snd r) = u.

(** How a promise settles on the result of the SDK call it awaits. *)
Definition settle {A : Type} (result : E + A) : Outcome A :=
  match result with
  | inr a => Resolved a
  | inl e => Rejected (Foreign e)
  end.

(** What a streaming call owes its caller on every chunk it reads, whether
    its promise resolves or rejects, for a call that started in [w], began
    with the SDK call [request] that returned [stream], and ended as [r].
    If the callback takes every chunk the stream delivers before it ends or
    breaks, it has been invoked on every one of them, once each and in order,
    and the promise resolves to their concatenation if the stream ended, and
    rejects with the exception that broke it otherwise.  If the callback
    throws on a chunk, having taken those before, it has been invoked on the
    chunks up to and including that one, and the promise rejects with the
    callback's exception. *)
Definition delivers_all_read (request : Event)
  (onResponseChunk : string -> U -> (E + unit) * U) (stream : Stream)
  (w : World) (r : Outcome string * World) : Prop :=
  (forall u : U,
      accepts onResponseChunk (received stream) (caller w) = Some u ->
      trace (snd r)
      = (trace w ++ request :: map ResponseChunk (received stream))%list
      /\ caller (snd r) = u
      /\ fst r = match failure stream with
                 | None => Resolved (String.concat "" (received stream))
                 | Some e => Rejected (Foreign e)
                 end)
  /\ (forall (before : list string) (chunkText : string)
         (later : list string) (e : E) (u1 u2 : U),
         received stream = (before ++ chunkText :: later)%list ->
         accepts onResponseChunk before (caller w) = Some u1 ->
         onResponseChunk chunkText u1 = (inl e, u2) ->
         trace (snd r)
         = (trace w
              ++ request :: map ResponseChunk (before ++ [chunkText]))%list
         /\ caller (snd r) = u2
         /\ fst r = Rejected (Foreign e)).

End Adapter.

Arguments Resolved {E A} a.
Arguments Rejected {E A} x.
Arguments Error {E} message.
Arguments Done {E}.
Arguments NewGoogleGenerativeAI {Client Model Chat number} apiKey.
Arguments GetGenerativeModel {Client Model Chat number} ai params.
Arguments GenerateContent {Client Model Chat number} m request.
Arguments GenerateContentStream {Client Model Chat number} m request.
Arguments CountTokens {Client Model Chat number} m request.
Arguments StartChat {Client Model Chat number} m params.
Arguments ChatSendMessage {Client Model Chat number} c request.
Arguments ChatSendMessageStream {Client Model Chat number} c request.
Arguments ChatGetHistory {Client Model Chat number} c.
Arguments ResponseChunk {Client Model Chat number} responseTextChunk.
Arguments NotInitializedError {E}.
Arguments ChatNotInitializedError {E}.
Arguments initial {V U Client Model Chat number} v u.
Arguments InitModel {U E number} params.
Arguments SendMessage {U E number} inputText options.
Arguments CountTokensOf {U E number} inputText options.
Arguments InitChat {U E number} chatHistory.
Arguments SendChatMessage {U E number} inputText options.
Arguments CountChatTokens {U E number} options.
Arguments GetChatHistory {U E number}.

(** ** The translations as the specification words them

    Kept apart from the code's own ([seed_turn], [history_part]) to be
    compared with them. *)

(** "parts = [text part if present] followed by [one inline-data part per
    image, in input order]", "role = user if isUser else model". *)
Definition spec_seed_turn (item : ChatHistoryItem.t) : Content.t :=
  {| Content.role := if ChatHistoryItem.isUser item then "user" else "model";
     Content.parts :=
       match ChatHistoryItem.text item with
       | Some t => [ {| Part.text := Some t; Part.inlineData := None |} ]
       | None => []
       end
       ++ map (fun image =>
                 {| Part.text := None; Part.inlineData := Some image |})
            (or_empty (ChatHistoryItem.images item)) |}.

(** "type: mime-type-if-inline-data-else-text, content:
    text-if-present-else-inline-data-payload-else-empty-string". *)
Definition spec_history_part (part : Part.t) : ModelChatHistoryPart.t :=
  {| ModelChatHistoryPart.type :=
       match Part.inlineData part with
       | Some blob => GenerativeContentBlob.mimeType blob
       | None => "text"
       end;
     ModelChatHistoryPart.content :=
       match Part.text part, Part.inlineData part with
       | Some t, _ => t
       | None, Some blob => GenerativeContentBlob.data blob
       | None, None => ""
       end |}.

Definition spec_history_item (content : Content.t) : ModelChatHistoryItem.t :=
  {| ModelChatHistoryItem.isUser := Content.role content =? "user";
     ModelChatHistoryItem.parts := map spec_history_part (Content.parts content) |}.

(** ** A small SDK to run the adapter on

    One model that answers every request with the same two chunks and one
    chat session whose transcript is the SDK's whole state.  Handles are the
    API key, the model name and a session number; exceptions are strings. *)

Module Echo.

Definition part_of (item : RequestItem) : Part.t :=
  match item with
  | Str s => {| Part.text := Some s; Part.inlineData := None |}
  | Prt part => part
  end.

Definition exchange (request : list RequestItem) (answer : string)
  : list Content.t :=
  [ {| Content.role := "user"; Content.parts := map part_of request |};
    {| Content.role := "model";
       Content.parts := [ {| Part.text := Some answer; Part.inlineData := None |} ] |} ].

Definition size (request : CountTokensRequest) : nat :=
  match request with
  | Items request => length request
  | Contents contents =>
      fold_right (fun c n => length (Content.parts c) + n) 0 contents
  end.

Definition sdk : SDK (list Content.t) string string string nat nat :=
  {| new_GoogleGenerativeAI := fun apiKey v => (inr apiKey, v);
     ai_getGenerativeModel :=
       fun _ params v => (inr (GenerativeModelParams.model params), v);
     model_generateContent := fun _ _ v => (inr (inr "Hello world"), v);
     model_generateContentStream :=
       fun _ _ v => (inr (Next (inr "Hello") (Next (inr " world") Done)), v);
     model_countTokens := fun _ request v => (inr (size request), v);
     model_startChat := fun _ params _ => (inr 0, StartChatParams.history params);
     chat_sendMessage :=
       fun _ request v => (inr (inr "Hello world"),
                           (v ++ exchange request "Hello world")%list);
     chat_sendMessageStream :=
       fun _ request v => (inr (Next (inr "Hello") (Next (inr " world") Done)),
                           (v ++ exchange request "Hello world")%list);
     chat_getHistory := fun _ v => (inr v, v) |}.

(** A callback that collects the chunks it is given. *)
Definition collect (chunkText : string) (u : list string)
  : (string + unit) * list string :=
  (inr tt, (u ++ [chunkText])%list).

(** A callback that throws on every chunk. *)
Definition refuse (chunkText : string) (u : list string)
  : (string + unit) * list string :=
  (inl "refused", u).

Definition params : ModelParams.t nat :=
  {| ModelParams.modelName := "gemini-pro"; ModelParams.apiKey := "key";
     ModelParams.temperature := None; ModelParams.topK := None;
     ModelParams.topP := None; ModelParams.maxOutputTokens := None;
     ModelParams.stopSequences := None;
     ModelParams.safetySettings :=
       Some [ ("HARASSMENT", Some "LOW_AND_ABOVE"); ("OTHER", None) ] |}.

Definition fresh : World (list Content.t) (list string) string string nat nat :=
  initial [] [].

(** After [initModel]. *)
Definition model_ready : World (list Content.t) (list string) string string nat nat :=
  snd (initModel sdk params fresh).

Definition imageA : GenerativeContentBlob.t :=
  {| GenerativeContentBlob.mimeType := "image/png"; GenerativeContentBlob.data := "QQ==" |}.
Definition imageB : GenerativeContentBlob.t :=
  {| GenerativeContentBlob.mimeType := "image/jpeg"; GenerativeContentBlob.data := "Qg==" |}.
Definition imageC : GenerativeContentBlob.t :=
  {| GenerativeContentBlob.mimeType := "image/gif"; GenerativeContentBlob.data := "Qw==" |}.

(** After [initModel] and [initChat([{isUser:true, text:"hi"}])]. *)
Definition chat_ready : World (list Content.t) (list string) string string nat nat :=
  snd (initChat sdk
         (Some [ {| ChatHistoryItem.isUser := true;
                    ChatHistoryItem.text := Some "hi";
                    ChatHistoryItem.images := None |} ])
         model_ready).

(** An item whose text is there and empty. *)
Definition empty_text_item : ChatHistoryItem.t :=
  {| ChatHistoryItem.isUser := true;
     ChatHistoryItem.text := Some "";
     ChatHistoryItem.images := None |}.

(** An image whose mime type is the empty string, and the state after
    [initModel] and an [initChat] seeded with that image alone. *)
Definition untyped_image : GenerativeContentBlob.t :=
  {| GenerativeContentBlob.mimeType := ""; GenerativeContentBlob.data := "QUJD" |}.

Definition untyped_ready : World (list Content.t) (list string) string string nat nat :=
  snd (initChat sdk
         (Some [ {| ChatHistoryItem.isUser := true;
                    ChatHistoryItem.text := None;
                    ChatHistoryItem.images := Some [untyped_image] |} ])
         model_ready).

End Echo.

(** ** An SDK that fails

    Same handles as the small SDK above.  The constructor refuses an empty
    API key and [getGenerativeModel] an empty model name; a single-shot answer
    is blocked when its text is read; a stream breaks after its first chunk;
    counting, starting a chat and reading its transcript all throw. *)

Module Flaky.

Definition sdk : SDK (list Content.t) string string string nat nat :=
  {| new_GoogleGenerativeAI :=
       fun apiKey v =>
         (if apiKey =? "" then inl "API key missing" else inr apiKey, v);
     ai_getGenerativeModel :=
       fun _ params v =>
         (if GenerativeModelParams.model params =? ""
          then inl "unknown model"
          else inr (GenerativeModelParams.model params), v);
     model_generateContent := fun _ _ v => (inr (inl "blocked"), v);
     model_generateContentStream :=
       fun _ _ v => (inr (Next (inr "Hel") (Abort "network")), v);
     model_countTokens := fun _ _ v => (inl "quota", v);
     model_startChat := fun _ _ v => (inl "bad history", v);
     chat_sendMessage := fun _ _ v => (inl "offline", v);
     chat_sendMessageStream :=
       fun _ _ v => (inr (Next (inr "Hel") (Abort "network")), v);
     chat_getHistory := fun _ v => (inl "gone", v) |}.

(** A callback that takes one chunk and throws on any later one. *)
Definition once (chunkText : string) (u : list string)
  : (string + unit) * list string :=
  match u with
  | [] => (inr tt, [chunkText])
  | _ :: _ => (inl "enough", u)
  end.

(** Parameters that name no model. *)
Definition nameless : ModelParams.t nat :=
  {| ModelParams.modelName := ""; ModelParams.apiKey := "key";
     ModelParams.temperature := Some 1; ModelParams.topK := None;
     ModelParams.topP := None; ModelParams.maxOutputTokens := None;
     ModelParams.stopSequences := None;
     ModelParams.safetySettings := None |}.

End Flaky.

(** * Properties *)

(** ** Sanity checks of the embedding on the small SDK *)

Example mapHarmCategory_hate :
  mapHarmCategory "HATE_SPEECH" = HARM_CATEGORY_HATE_SPEECH.
Proof. reflexivity. Qed.

Example mapSafetySettingLevel_lowercase :
  mapSafetySettingLevel (Some "none") = HARM_BLOCK_THRESHOLD_UNSPECIFIED.
Proof. reflexivity. Qed.

Example initModel_translates_safety_settings :
  trace Echo.model_ready =
  [ NewGoogleGenerativeAI "key";
    GetGenerativeModel "key"
      {| GenerativeModelParams.model := "gemini-pro";
         GenerativeModelParams.safetySettings :=
           [ {| SafetySetting.category := HARM_CATEGORY_HARASSMENT;
                SafetySetting.threshold := BLOCK_MEDIUM_AND_ABOVE |};
             {| SafetySetting.category := HARM_CATEGORY_UNSPECIFIED;
                SafetySetting.threshold := HARM_BLOCK_THRESHOLD_UNSPECIFIED |} ];
         GenerativeModelParams.generationConfig :=
           {| GenerationConfig.temperature := None;
              GenerationConfig.topK := None;
              GenerationConfig.topP := None;
              GenerationConfig.maxOutputTokens := None;
              GenerationConfig.stopSequences := None |} |} ].
Proof. reflexivity. Qed.

Example chat_round_trip :
  fst (getChatHistory Echo.sdk
         (snd (sendChatMessage Echo.sdk "hello" None Echo.chat_ready))) =
  Resolved
    [ {| ModelChatHistoryItem.isUser := true;
         ModelChatHistoryItem.parts :=
           [ {| ModelChatHistoryPart.type := "text";
                ModelChatHistoryPart.content := "hi" |} ] |};
      {| ModelChatHistoryItem.isUser := true;
         ModelChatHistoryItem.parts :=
           [ {| ModelChatHistoryPart.type := "text";
                ModelChatHistoryPart.content := "hello" |} ] |};
      {| ModelChatHistoryItem.isUser := false;
         ModelChatHistoryItem.parts :=
           [ {| ModelChatHistoryPart.type := "text";
                ModelChatHistoryPart.content := "Hello world" |} ] |} ].
Proof. reflexivity. Qed.

Example throwing_callback_rejects :
  sendMessage Echo.sdk "hi"
    (Some {| SendMessageOptions.images := None;
             SendMessageOptions.onResponseChunk := Some Echo.refuse |})
    Echo.model_ready
  = (Rejected (Foreign "refused"),
     after_callback (ResponseChunk "Hello") []
       (after_call (GenerateContentStream "gemini-pro" [Str "hi"]) []
          Echo.model_ready)).
Proof. reflexivity. Qed.

(** ** The enum mappings *)

Lemma eqb_false_of_neq (s t : string) : s <> t -> (s =? t) = false.
Proof. intro H. now apply String.eqb_neq. Qed.

(** C4. Both enum mappings are total functions of their argument alone:
    every member of [SafetySettingHarmCategory] and of [SafetySettingLevel]
    has exactly one image, and every input that is not one of the named
    members other than UNSPECIFIED (UNSPECIFIED itself, an unknown string,
    [undefined]) is sent to the SDK's unspecified value. *)
Theorem enum_mappings_total :
  (mapHarmCategory SafetySettingHarmCategory.HARASSMENT
     = HARM_CATEGORY_HARASSMENT
   /\ mapHarmCategory SafetySettingHarmCategory.HATE_SPEECH
     = HARM_CATEGORY_HATE_SPEECH
   /\ mapHarmCategory SafetySettingHarmCategory.SEXUALLY_EXPLICIT
     = HARM_CATEGORY_SEXUALLY_EXPLICIT
   /\ mapHarmCategory SafetySettingHarmCategory.DANGEROUS_CONTENT
     = HARM_CATEGORY_DANGEROUS_CONTENT
   /\ mapHarmCategory SafetySettingHarmCategory.UNSPECIFIED
     = HARM_CATEGORY_UNSPECIFIED)
  /\ (mapSafetySettingLevel (Some SafetySettingLevel.NONE) = BLOCK_NONE
      /\ mapSafetySettingLevel (Some SafetySettingLevel.ONLY_HIGH)
         = BLOCK_ONLY_HIGH
      /\ mapSafetySettingLevel (Some SafetySettingLevel.MEDIUM_AND_ABOVE)
         = BLOCK_MEDIUM_AND_ABOVE
      /\ mapSafetySettingLevel (Some SafetySettingLevel.LOW_AND_ABOVE)
         = BLOCK_MEDIUM_AND_ABOVE
      /\ mapSafetySettingLevel (Some SafetySettingLevel.UNSPECIFIED)
         = HARM_BLOCK_THRESHOLD_UNSPECIFIED)
  /\ (forall harmCategory : string,
         (exists! v, mapHarmCategory harmCategory = v)
         /\ (harmCategory <> SafetySettingHarmCategory.HARASSMENT ->
             harmCategory <> SafetySettingHarmCategory.HATE_SPEECH ->
             harmCategory <> SafetySettingHarmCategory.SEXUALLY_EXPLICIT ->
             harmCategory <> SafetySettingHarmCategory.DANGEROUS_CONTENT ->
             mapHarmCategory harmCategory = HARM_CATEGORY_UNSPECIFIED))
  /\ (forall level : option string,
         (exists! v, mapSafetySettingLevel level = v)
         /\ (level <> Some SafetySettingLevel.NONE ->
             level <> Some SafetySettingLevel.ONLY_HIGH ->
             level <> Some SafetySettingLevel.MEDIUM_AND_ABOVE ->
             level <> Some SafetySettingLevel.LOW_AND_ABOVE ->
             mapSafetySettingLevel level = HARM_BLOCK_THRESHOLD_UNSPECIFIED)).
Proof.
  split; [repeat split | split; [repeat split | split]].
  - intro s. split.
    + exists (mapHarmCategory s). split; [reflexivity | now intros v <-].
    + intros H1 H2 H3 H4. unfold mapHarmCategory.
      rewrite (eqb_false_of_neq H1), (eqb_false_of_neq H2),
        (eqb_false_of_neq H3), (eqb_false_of_neq H4).
      now destruct (s =? _).
  - intro l. split.
    + exists (mapSafetySettingLevel l). split; [reflexivity | now intros v <-].
    + intros H1 H2 H3 H4. destruct l as [l|]; [|reflexivity].
      assert (N : forall t, Some l <> Some t -> (l =? t) = false)
        by (intros t H; apply eqb_false_of_neq; congruence).
      unfold mapSafetySettingLevel.
      rewrite (N _ H1), (N _ H2), (N _ H3), (N _ H4).
      now destruct (l =? _).
Qed.

(** C5. [mapSafetySettingLevel] sends the two distinct levels LOW_AND_ABOVE
    and MEDIUM_AND_ABOVE to the same threshold BLOCK_MEDIUM_AND_ABOVE, and no
    input at all is sent to BLOCK_LOW_AND_ABOVE. *)
Theorem block_level_mapping_not_injective :
  SafetySettingLevel.LOW_AND_ABOVE <> SafetySettingLevel.MEDIUM_AND_ABOVE
  /\ mapSafetySettingLevel (Some SafetySettingLevel.LOW_AND_ABOVE)
     = BLOCK_MEDIUM_AND_ABOVE
  /\ mapSafetySettingLevel (Some SafetySettingLevel.MEDIUM_AND_ABOVE)
     = BLOCK_MEDIUM_AND_ABOVE
  /\ (forall level : option string,
         mapSafetySettingLevel level <> BLOCK_LOW_AND_ABOVE).
Proof.
  split; [discriminate | split; [reflexivity | split; [reflexivity |]]].
  intros [l|]; simpl; [|discriminate].
  repeat match goal with
         | |- context [if ?b then _ else _] => destruct b
         end; discriminate.
Qed.

(** ** Loops that push are maps *)

Lemma for_of_push (A B : Type) (f : A -> B) (xs : list A) (init : list B) :
  for_of xs (fun acc x => push acc (f x)) init = (init ++ map f xs)%list.
Proof.
  unfold for_of, push. revert init.
  induction xs as [|x xs IH]; intro init; simpl.
  - now rewrite app_nil_r.
  - rewrite IH, <- app_assoc. reflexivity.
Qed.

Lemma imageParts_of_map (images : list GenerativeContentBlob.t) :
  imageParts_of images =
  map (fun image => {| Part.text := None; Part.inlineData := Some image |}) images.
Proof. unfold imageParts_of. now rewrite for_of_push. Qed.

Lemma string_app_assoc (a b c : string) : (a ++ b) ++ c = a ++ (b ++ c).
Proof. induction a as [|ch a IH]; simpl; [reflexivity | now rewrite IH]. Qed.

Lemma concat_cons (x : string) (xs : list string) :
  String.concat "" (x :: xs) = x ++ String.concat "" xs.
Proof.
  destruct xs as [|y ys]; simpl; [|reflexivity].
  induction x as [|ch x IH]; simpl; [reflexivity | now f_equal].
Qed.

(** ** The adapter over any SDK *)

Section Theory.

Context {V U E Client Model Chat number : Type}.
Variable sdk : SDK V E Client Model Chat number.

Local Abbreviation World := (World V U Client Model Chat number).
Local Abbreviation Callback := (string -> U -> (E + unit) * U).

Lemma text_world (response : Response E) (w : World) :
  snd (text (Chat:=Chat) (number:=number) response w) = w.
Proof. now destruct response. Qed.

(** *** The stream loop *)

Section Consume.

Variable images : option (list GenerativeContentBlob.t).
Variable onResponseChunk : Callback.

Let options : option (SendMessageOptions.t U E) :=
  Some {| SendMessageOptions.images := images;
          SendMessageOptions.onResponseChunk := Some onResponseChunk |}.

Lemma consume_next (chunkText : string) (rest : Stream E)
  (responseText : string) (w : World) :
  consume options (Next (inr chunkText) rest) responseText w =
  match onResponseChunk chunkText (caller w) with
  | (inr _, u) =>
      consume options rest (responseText ++ chunkText)
        (after_callback (ResponseChunk chunkText) u w)
  | (inl e, u) =>
      (Rejected (Foreign e), after_callback (ResponseChunk chunkText) u w)
  end.
Proof.
  simpl. unfold bind, ret. simpl.
  now destruct (onResponseChunk chunkText (caller w)) as [[e|x] u].
Qed.

Lemma consume_trace (stream : Stream E) (responseText : string) (w : World) :
  let r := consume options stream responseText w in
  exists invoked later,
    received stream = (invoked ++ later)%list
    /\ trace (snd r) = (trace w ++ map ResponseChunk invoked)%list
    /\ (forall s, fst r = Resolved s -> later = []).
Proof.
  revert responseText w.
  induction stream as [|[e|chunkText] rest IH|e]; intros acc w; cbv zeta.
  - exists [], []. simpl. now rewrite app_nil_r.
  - exists [], []. simpl. now rewrite app_nil_r.
  - rewrite consume_next.
    destruct (onResponseChunk chunkText (caller w)) as [[e|x] u].
    + exists [chunkText], (received rest). simpl. repeat split. discriminate.
    + destruct (IH (acc ++ chunkText)
                  (after_callback (ResponseChunk chunkText) u w))
        as (invoked & later & Hr & Ht & Hl).
      exists (chunkText :: invoked), later. simpl in *.
      rewrite Hr, Ht, <- app_assoc. repeat split. exact Hl.
  - exists [], []. simpl. now rewrite app_nil_r.
Qed.

Lemma string_app_nil_r (s : string) : s ++ "" = s.
Proof. induction s as [|ch s IH]; simpl; [reflexivity | now f_equal]. Qed.

Lemma consume_resolved (stream : Stream E) (responseText : string) (w : World) :
  forall s,
    fst (consume options stream responseText w) = Resolved s ->
    s = responseText ++ String.concat "" (received stream)
    /\ succeeds stream = true
    /\ accepts onResponseChunk (received stream) (caller w)
       = Some (caller (snd (consume options stream responseText w))).
Proof.
  revert responseText w.
  induction stream as [|[e|chunkText] rest IH|e]; intros acc w s;
    try discriminate.
  - simpl. intro H. injection H as <-. now rewrite string_app_nil_r.
  - rewrite consume_next. simpl received. simpl succeeds. simpl accepts.
    destruct (onResponseChunk chunkText (caller w)) as [[e|x] u].
    + discriminate.
    + intro H. apply IH in H. simpl in H. destruct H as (Hs & Hok & Hacc).
      rewrite concat_cons, <- string_app_assoc. repeat split; assumption.
Qed.

Lemma consume_resolves (stream : Stream E) (responseText : string) (w : World) :
  succeeds stream = true ->
  accepts onResponseChunk (received stream) (caller w) <> None ->
  fst (consume options stream responseText w)
  = Resolved (responseText ++ String.concat "" (received stream)).
Proof.
  revert responseText w.
  induction stream as [|[e|chunkText] rest IH|e]; intros acc w;
    try discriminate.
  - intros _ _. simpl. now rewrite string_app_nil_r.
  - rewrite consume_next. simpl received. simpl succeeds. simpl accepts.
    destruct (onResponseChunk chunkText (caller w)) as [[e|x] u].
    + intros _ Hacc. now elim Hacc.
    + intros Hok Hacc. rewrite IH by assumption.
      now rewrite concat_cons, <- string_app_assoc.
Qed.

End Consume.

(** *** Streaming calls *)

Section Streaming.

Variable inputText : string.
Variable images : option (list GenerativeContentBlob.t).
Variable onResponseChunk : Callback.

Let options : option (SendMessageOptions.t U E) :=
  Some {| SendMessageOptions.images := images;
          SendMessageOptions.onResponseChunk := Some onResponseChunk |}.

Let request : list RequestItem :=
  request_of inputText (imageParts_of (or_empty images)).

Lemma consume_in_order (ev : Event Client Model Chat number)
  (stream : Stream E) (v : V) (w : World) :
  streams_in_order ev onResponseChunk stream w
    (consume options stream "" (after_call ev v w)).
Proof.
  unfold streams_in_order. repeat split.
  - destruct (consume_trace images onResponseChunk stream ""
                (after_call ev v w)) as (invoked & later & Hr & Ht & Hl).
    exists invoked, later. repeat split; try assumption.
    fold options in Ht. rewrite Ht. simpl. now rewrite <- app_assoc.
  - now apply (consume_resolved images onResponseChunk) in H.
  - now apply (consume_resolved images onResponseChunk) in H.
  - now apply (consume_resolved images onResponseChunk) in H.
  - intros Hok Hacc.
    apply (consume_resolves images onResponseChunk stream ""
             (after_call ev v w) Hok Hacc).
Qed.

Lemma sendMessage_streams (w : World) (m : Model) (stream : Stream E) (v : V) :
  model w = Some m ->
  model_generateContentStream sdk m request (sdk_state w) = (inr stream, v) ->
  sendMessage sdk inputText options w =
  consume options stream "" (after_call (GenerateContentStream m request) v w).
Proof.
  intros Hm Hs. unfold sendMessage, bind, require_model, await. simpl.
  rewrite Hm. fold request. now rewrite Hs.
Qed.

Lemma sendChatMessage_streams (w : World) (m : Model) (c : Chat)
  (stream : Stream E) (v : V) :
  model w = Some m ->
  chat w = Some c ->
  chat_sendMessageStream sdk c request (sdk_state w) = (inr stream, v) ->
  sendChatMessage sdk inputText options w =
  consume options stream "" (after_call (ChatSendMessageStream c request) v w).
Proof.
  intros Hm Hc Hs.
  unfold sendChatMessage, bind, require_model, require_chat, await. simpl.
  rewrite Hm, Hc. fold request. now rewrite Hs.
Qed.

End Streaming.

(** *** Single-shot calls *)

Lemma sendMessage_single (inputText : string)
  (images : option (list GenerativeContentBlob.t)) (w : World) (m : Model)
  (response : Response E) (v : V) :
  let request := request_of inputText (imageParts_of (or_empty images)) in
  model w = Some m ->
  model_generateContent sdk m request (sdk_state w) = (inr response, v) ->
  sendMessage sdk inputText
    (Some {| SendMessageOptions.images := images;
             SendMessageOptions.onResponseChunk := None |}) w
  = text response (after_call (GenerateContent m request) v w).
Proof.
  intros request Hm Hs. unfold sendMessage, bind, require_model, await. simpl.
  rewrite Hm. fold request. now rewrite Hs.
Qed.

(** C3. Given the same text and images, and an SDK whose single-shot answer
    is the concatenation of the chunks of its stream, the form of
    [sendMessage] without callback resolves to that text, the form with a
    callback resolves to nothing else, and it does resolve to it when the
    stream ends well and the callback never throws. *)
Theorem streaming_agrees_with_single_shot
  (inputText : string) (images : option (list GenerativeContentBlob.t))
  (w : World) (m : Model) (t : string) (stream : Stream E) (v1 v2 : V) :
  let request :=
    Str inputText
    :: map (fun image =>
              Prt {| Part.text := None; Part.inlineData := Some image |})
         (or_empty images) in
  model w = Some m ->
  model_generateContent sdk m request (sdk_state w) = (inr (inr t), v1) ->
  model_generateContentStream sdk m request (sdk_state w) = (inr stream, v2) ->
  String.concat "" (received stream) = t ->
  fst (sendMessage sdk inputText
         (Some {| SendMessageOptions.images := images;
                  SendMessageOptions.onResponseChunk := None |}) w)
  = Resolved t
  /\ (images = None -> fst (sendMessage sdk inputText None w) = Resolved t)
  /\ (forall onResponseChunk : Callback,
         let streamed :=
           fst (sendMessage sdk inputText
                  (Some {| SendMessageOptions.images := images;
                           SendMessageOptions.onResponseChunk :=
                             Some onResponseChunk |}) w) in
         (forall s, streamed = Resolved s -> s = t)
         /\ (succeeds stream = true ->
             accepts onResponseChunk (received stream) (caller w) <> None ->
             streamed = Resolved t)).
Proof.
  intros request Hm Hone Hmany Hcat.
  assert (Hreq : request = request_of inputText (imageParts_of (or_empty images))).
  { unfold request, request_of. now rewrite imageParts_of_map, map_map. }
  rewrite Hreq in Hone, Hmany.
  split; [|split].
  - now rewrite (sendMessage_single _ _ _ Hm Hone).
  - intros ->. unfold sendMessage, bind, require_model, await. simpl.
    rewrite Hm. change (request_of inputText (imageParts_of (or_empty None)))
      with (request_of inputText []) in Hone.
    simpl. now rewrite Hone.
  - intros cb streamed. unfold streamed.
    rewrite (sendMessage_streams _ _ cb _ Hm Hmany).
    pose proof (consume_in_order images cb
                  (GenerateContentStream m
                     (request_of inputText (imageParts_of (or_empty images))))
                  stream v2 w) as (_ & Hres & Htot).
    split.
    + intros s Hs. apply Hres in Hs. destruct Hs as (-> & _). exact Hcat.
    + intros Hok Hacc. rewrite <- Hcat. now apply Htot.
Qed.

(** *** What is handed to the SDK *)

Lemma await_trace (A : Type) (ev : Event Client Model Chat number)
  (call : Vendor V E A) (w : World) :
  trace (snd (await (U:=U) ev call w)) = (trace w ++ [ev])%list.
Proof. unfold await. now destruct (call (sdk_state w)) as [[e|a] v]. Qed.

(** C7. With a model handle, [sendMessage] and [countTokens] hand the SDK
    one request: the text first, then one inline-data part per image of the
    options, in the order of the images.  The call settles on what the SDK
    answers to that very request: [countTokens] and the form of [sendMessage]
    without callback as that one call does, the form with a callback by
    reading the stream that call returns.  [sendMessage] makes no other SDK
    call: what follows in the trace are callback invocations. *)
Theorem request_is_text_then_images
  (inputText : string) (w : World) (m : Model) :
  model w = Some m ->
  (forall options : option (SendMessageOptions.t U E),
      let images :=
        match options with
        | Some o => or_empty (SendMessageOptions.images o)
        | None => []
        end in
      let request :=
        Str inputText
        :: map (fun image =>
                  Prt {| Part.text := None; Part.inlineData := Some image |})
             images in
      (exists later,
          trace (snd (sendMessage sdk inputText options w))
          = (trace w
               ++ (if streamResponse_of options
                   then GenerateContentStream m request
                   else GenerateContent m request) :: later)%list
          /\ Forall (fun ev => exists s, ev = ResponseChunk s) later)
      /\ (streamResponse_of options = false ->
          forall (result : E + Response E) (v : V),
            model_generateContent sdk m request (sdk_state w) = (result, v) ->
            sendMessage sdk inputText options w
            = (match result with
               | inr response => settle response
               | inl e => Rejected (Foreign e)
               end,
               after_call (GenerateContent m request) v w))
      /\ (streamResponse_of options = true ->
          forall (result : E + Stream E) (v : V),
            model_generateContentStream sdk m request (sdk_state w)
            = (result, v) ->
            sendMessage sdk inputText options w
            = match result with
              | inr stream =>
                  consume options stream ""
                    (after_call (GenerateContentStream m request) v w)
              | inl e =>
                  (Rejected (Foreign e),
                   after_call (GenerateContentStream m request) v w)
              end))
  /\ (forall options : option CountTokensOptions.t,
         let images :=
           match options with
           | Some o => or_empty (CountTokensOptions.images o)
           | None => []
           end in
         let request :=
           Items
             (Str inputText
              :: map (fun image =>
                        Prt {| Part.text := None;
                               Part.inlineData := Some image |})
                   images) in
         trace (snd (countTokens sdk inputText options w))
         = (trace w ++ [ CountTokens m request ])%list
         /\ (forall (result : E + number) (v : V),
                model_countTokens sdk m request (sdk_state w) = (result, v) ->
                countTokens sdk inputText options w
                = (settle result, after_call (CountTokens m request) v w))).
Proof.
  intro Hm. split.
  - intros options images request.
    assert (Hreq : request = request_of inputText (send_imageParts options)).
    { unfold request, request_of, images, send_imageParts.
      destruct options as [o|]; [|reflexivity].
      now rewrite imageParts_of_map, map_map. }
    assert (Hrun : sendMessage sdk inputText options w
                   = (if streamResponse_of options
                      then
                        bind (await (GenerateContentStream m request)
                                (model_generateContentStream sdk m request))
                          (fun stream => consume options stream "")
                      else
                        bind (await (GenerateContent m request)
                                (model_generateContent sdk m request))
                          (fun response => text response)) w).
    { rewrite Hreq. unfold sendMessage, bind at 1, require_model.
      now rewrite Hm. }
    clearbody request. clear images Hreq. rewrite Hrun. clear Hrun.
    split; [|split].
    + destruct options as [[images [cb|]]|];
        cbn [streamResponse_of SendMessageOptions.onResponseChunk];
        unfold bind, await.
      * destruct (model_generateContentStream sdk m request (sdk_state w))
          as [[e|stream] v].
        -- exists []. split; [reflexivity | constructor].
        -- destruct (consume_trace images cb stream ""
                       (after_call (GenerateContentStream m request) v w))
             as (invoked & later & _ & Ht & _).
           exists (map ResponseChunk invoked). split.
           ++ rewrite Ht. simpl. now rewrite <- app_assoc.
           ++ apply Forall_forall. intros ev Hin. apply in_map_iff in Hin.
              destruct Hin as (s & <- & _). now exists s.
      * destruct (model_generateContent sdk m request (sdk_state w))
          as [[e|response] v].
        -- exists []. split; [reflexivity | constructor].
        -- exists []. rewrite text_world. split; [reflexivity | constructor].
      * destruct (model_generateContent sdk m request (sdk_state w))
          as [[e|response] v].
        -- exists []. split; [reflexivity | constructor].
        -- exists []. rewrite text_world. split; [reflexivity | constructor].
    + intros Hs result v Hcall. rewrite Hs. unfold bind, await.
      rewrite Hcall. now destruct result as [e|[e|t]].
    + intros Hs result v Hcall. rewrite Hs. unfold bind, await.
      rewrite Hcall. now destruct result as [e|stream].
  - intros options images request.
    assert (Hreq : request
                   = Items
                       (request_of inputText
                          match options with
                          | Some o =>
                              imageParts_of
                                (or_empty (CountTokensOptions.images o))
                          | None => []
                          end)).
    { unfold request, request_of, images.
      destruct options as [o|]; [|reflexivity].
      now rewrite imageParts_of_map, map_map. }
    assert (Hrun : countTokens sdk inputText options w
                   = await (CountTokens m request)
                       (model_countTokens sdk m request) w).
    { rewrite Hreq. unfold countTokens, bind, require_model.
      now rewrite Hm. }
    clearbody request. clear images Hreq. rewrite Hrun. split.
    + apply await_trace.
    + intros result v Hcall. unfold await. rewrite Hcall.
      now destruct result.
Qed.

(** *** Chat-aware token counting *)

Lemma parts_of_text_and_images (inputText : option string)
  (images : option (list GenerativeContentBlob.t)) :
  match images with
  | Some images =>
      for_of images
        (fun parts image =>
           push parts {| Part.text := None; Part.inlineData := Some image |})
        (if truthy inputText
         then push [] {| Part.text := inputText; Part.inlineData := None |}
         else [])
  | None =>
      if truthy inputText
      then push [] {| Part.text := inputText; Part.inlineData := None |}
      else []
  end
  = (match inputText with
     | Some t =>
         if t =? "" then []
         else [ {| Part.text := Some t; Part.inlineData := None |} ]
     | None => []
     end
     ++ map (fun image => {| Part.text := None; Part.inlineData := Some image |})
          (or_empty images))%list.
Proof.
  assert (Ht : (if truthy inputText
                then push [] {| Part.text := inputText; Part.inlineData := None |}
                else [])
               = match inputText with
                 | Some t =>
                     if t =? "" then []
                     else [ {| Part.text := Some t; Part.inlineData := None |} ]
                 | None => []
                 end).
  { destruct inputText as [t|]; simpl; [|reflexivity]. now destruct (t =? ""). }
  rewrite Ht. destruct images as [images|]; simpl.
  - now rewrite for_of_push.
  - now rewrite app_nil_r.
Qed.

(** C6. With both handles, [countChatTokens] reads the transcript of the
    conversation and then has the SDK count the transcript followed by a
    synthetic turn, settling as that count does: exactly one turn, of role
    user and made of the parts the options yield, when they yield a part (a
    non-empty [inputText], or at least one image), and no turn when they
    yield none.  Without options, and with options that hold neither text nor
    images, what is counted is the transcript itself. *)
Theorem countChatTokens_appends_one_turn_iff_parts
  (options : option CountChatTokensOptions.t) (w : World) (m : Model)
  (c : Chat) (history : list Content.t) (v : V) :
  let inputText :=
    match options with
    | Some o => CountChatTokensOptions.inputText o
    | None => None
    end in
  let images :=
    match options with
    | Some o => or_empty (CountChatTokensOptions.images o)
    | None => []
    end in
  let parts :=
    (match inputText with
     | Some t =>
         if t =? "" then []
         else [ {| Part.text := Some t; Part.inlineData := None |} ]
     | None => []
     end
     ++ map (fun image => {| Part.text := None; Part.inlineData := Some image |})
          images)%list in
  let synthetic :=
    match parts with
    | [] => []
    | _ :: _ => [ {| Content.role := "user"; Content.parts := parts |} ]
    end in
  let contents := (history ++ synthetic)%list in
  model w = Some m ->
  chat w = Some c ->
  chat_getHistory sdk c (sdk_state w) = (inr history, v) ->
  (forall (result : E + number) (v' : V),
      model_countTokens sdk m (Contents contents) v = (result, v') ->
      countChatTokens sdk options w
      = (settle result,
         after_call (CountTokens m (Contents contents)) v'
           (after_call (ChatGetHistory c) v w)))
  /\ trace (snd (countChatTokens sdk options w))
     = (trace w ++ [ ChatGetHistory c; CountTokens m (Contents contents) ])%list
  /\ (length synthetic = 1 <-> truthy inputText = true \/ images <> [])
  /\ (truthy inputText = false -> images = [] -> contents = history)
  /\ (options = None
      \/ options = Some {| CountChatTokensOptions.inputText := None;
                           CountChatTokensOptions.images := None |} ->
      contents = history).
Proof.
  intros inputText images parts synthetic contents Hm Hc Hh.
  assert (Hrun : countChatTokens sdk options w
                 = await (CountTokens m (Contents contents))
                     (model_countTokens sdk m (Contents contents))
                     (after_call (ChatGetHistory c) v w)).
  { unfold countChatTokens, bind at 1, require_model. rewrite Hm.
    unfold bind at 1, require_chat. rewrite Hc.
    unfold bind, await at 1. rewrite Hh.
    rewrite parts_of_text_and_images.
    replace (or_empty
               match options with
               | Some o => CountChatTokensOptions.images o
               | None => None
               end) with images
      by (unfold images; now destruct options).
    fold inputText. fold parts.
    replace (if Nat.ltb 0 (length parts)
             then push [] {| Content.role := "user"; Content.parts := parts |}
             else []) with synthetic
      by (unfold synthetic; now destruct parts).
    reflexivity. }
  assert (Hp : parts <> [] <-> truthy inputText = true \/ images <> []).
  { unfold parts.
    destruct inputText as [t|]; simpl; [destruct (t =? ""); simpl|];
      destruct images; simpl;
      (split;
       [ intro H; first [left; reflexivity | right; congruence]
       | intros [H|H]; congruence ]). }
  assert (Hnone : truthy inputText = false -> images = [] -> contents = history).
  { intros Ht Hi. unfold contents, synthetic.
    destruct parts as [|part rest] eqn:Hparts; [apply app_nil_r|].
    assert (Hne : part :: rest <> []) by discriminate.
    apply Hp in Hne. destruct Hne; congruence. }
  rewrite Hrun. split; [|split; [|split; [|split]]].
  - intros result v' Hcall. unfold await. simpl sdk_state. rewrite Hcall.
    now destruct result.
  - rewrite await_trace. simpl. now rewrite <- app_assoc.
  - rewrite <- Hp. unfold synthetic. destruct parts; simpl; split; congruence.
  - exact Hnone.
  - intro Hopt. apply Hnone;
      unfold inputText, images; now destruct Hopt as [->| ->].
Qed.

(** *** Seeding a conversation *)

Lemma seed_turn_parts (item : ChatHistoryItem.t) :
  seed_turn item =
  {| Content.role := if ChatHistoryItem.isUser item then "user" else "model";
     Content.parts :=
       match ChatHistoryItem.text item with
       | Some t =>
           if t =? "" then []
           else [ {| Part.text := Some t; Part.inlineData := None |} ]
       | None => []
       end
       ++ map (fun image => {| Part.text := None; Part.inlineData := Some image |})
            (or_empty (ChatHistoryItem.images item)) |}.
Proof.
  unfold seed_turn. f_equal.
  apply (parts_of_text_and_images (ChatHistoryItem.text item)
           (ChatHistoryItem.images item)).
Qed.

(** C8, amended.  With a model handle, [initChat] starts the conversation on
    a seed history of one turn per item of the input list, in the order of
    the list: role user if [isUser] and model otherwise, and as parts the text
    part if the text is present and not the empty string, followed by one
    inline-data part per image in input order.  It settles as [startChat]
    does on that very history, and the conversation returned becomes the
    conversation handle.  On a list no item of which has an empty text, this
    is the translation the specification words. *)
Theorem initChat_seeds_turns_in_order
  (chatHistory : option (list ChatHistoryItem.t)) (w : World) (m : Model) :
  let turn (item : ChatHistoryItem.t) : Content.t :=
    {| Content.role := if ChatHistoryItem.isUser item then "user" else "model";
       Content.parts :=
         match ChatHistoryItem.text item with
         | Some t =>
             if t =? "" then []
             else [ {| Part.text := Some t; Part.inlineData := None |} ]
         | None => []
         end
         ++ map (fun image =>
                   {| Part.text := None; Part.inlineData := Some image |})
              (or_empty (ChatHistoryItem.images item)) |} in
  let startChatParams :=
    {| StartChatParams.history := map turn (or_empty chatHistory) |} in
  model w = Some m ->
  (forall (result : E + Chat) (v : V),
      model_startChat sdk m startChatParams (sdk_state w) = (result, v) ->
      initChat sdk chatHistory w
      = match result with
        | inr c =>
            (Resolved tt,
             {| generativeAI := generativeAI w; model := model w;
                chat := Some c; sdk_state := v; caller := caller w;
                trace := trace w ++ [ StartChat m startChatParams ] |})
        | inl e =>
            (Rejected (Foreign e),
             {| generativeAI := generativeAI w; model := model w;
                chat := chat w; sdk_state := v; caller := caller w;
                trace := trace w ++ [ StartChat m startChatParams ] |})
        end)
  /\ trace (snd (initChat sdk chatHistory w))
     = (trace w ++ [ StartChat m startChatParams ])%list
  /\ (Forall (fun item => ChatHistoryItem.text item <> Some "")
        (or_empty chatHistory) ->
      map turn (or_empty chatHistory)
      = map spec_seed_turn (or_empty chatHistory)).
Proof.
  intros turn startChatParams Hm.
  assert (Hrun : initChat sdk chatHistory w
                 = bind (await (StartChat m startChatParams)
                           (model_startChat sdk m startChatParams))
                     (fun c => set_chat E c) w).
  { unfold initChat, bind at 1, require_model. rewrite Hm.
    assert (Hh : match chatHistory with
                 | Some items =>
                     for_of items
                       (fun modelChatHistory chatHistoryItem =>
                          push modelChatHistory (seed_turn chatHistoryItem))
                       []
                 | None => []
                 end = map turn (or_empty chatHistory)).
    { destruct chatHistory as [items|]; [|reflexivity].
      rewrite for_of_push. simpl. apply map_ext. intro item.
      apply seed_turn_parts. }
    rewrite Hh. reflexivity. }
  rewrite Hrun. split; [|split].
  - intros result v Hstart. unfold bind, await. rewrite Hstart.
    now destruct result as [e|c].
  - unfold bind, await.
    now destruct (model_startChat sdk m startChatParams (sdk_state w))
      as [[e|c] v].
  - intro Hne. apply map_ext_in. intros item Hin.
    rewrite Forall_forall in Hne. specialize (Hne item Hin).
    unfold turn, spec_seed_turn. f_equal.
    destruct (ChatHistoryItem.text item) as [t|]; [|reflexivity].
    destruct (t =? "") eqn:Ht; [|reflexivity].
    apply String.eqb_eq in Ht. congruence.
Qed.

(** *** Reading the transcript back *)

Lemma history_part_cases (part : Part.t) :
  history_part part =
  let payload :=
    match Part.inlineData part with
    | Some blob => GenerativeContentBlob.data blob
    | None => ""
    end in
  {| ModelChatHistoryPart.type :=
       match Part.inlineData part with
       | Some blob =>
           if GenerativeContentBlob.mimeType blob =? "" then "image"
           else GenerativeContentBlob.mimeType blob
       | None => "text"
       end;
     ModelChatHistoryPart.content :=
       match Part.text part with
       | Some t => if t =? "" then payload else t
       | None => payload
       end |}.
Proof.
  assert (Hd : forall s, or_default (Some s) "" = s).
  { intro s. simpl. destruct (s =? "") eqn:Hs; [|reflexivity].
    now apply String.eqb_eq in Hs. }
  unfold history_part. cbv zeta. f_equal.
  destruct part as [[t|] [blob|]]; unfold or_else; simpl.
  - destruct (t =? "") eqn:Ht; simpl; [apply Hd | now rewrite Ht].
  - destruct (t =? "") eqn:Ht; simpl; [reflexivity | now rewrite Ht].
  - apply Hd.
  - reflexivity.
Qed.

(** C9, amended.  With both handles, [getChatHistory] resolves to the
    transcript of the conversation mapped turn by turn and part by part, in
    the stored order: [isUser] tells whether the role is user; the type of a
    part is text without inline data and, with inline data, its mime type,
    or image when the mime type is the empty string; the content is the text
    if present and not empty, else the inline-data payload, else the empty
    string.  On parts whose inline data, if any, has a non-empty mime type
    and comes without text, this is the mapping the specification words. *)
Theorem getChatHistory_maps_transcript_in_order
  (w : World) (m : Model) (c : Chat) (history : list Content.t) (v : V) :
  let part_out (part : Part.t) : ModelChatHistoryPart.t :=
    let payload :=
      match Part.inlineData part with
      | Some blob => GenerativeContentBlob.data blob
      | None => ""
      end in
    {| ModelChatHistoryPart.type :=
         match Part.inlineData part with
         | Some blob =>
             if GenerativeContentBlob.mimeType blob =? "" then "image"
             else GenerativeContentBlob.mimeType blob
         | None => "text"
         end;
       ModelChatHistoryPart.content :=
         match Part.text part with
         | Some t => if t =? "" then payload else t
         | None => payload
         end |} in
  let turn_out (content : Content.t) : ModelChatHistoryItem.t :=
    {| ModelChatHistoryItem.isUser := Content.role content =? "user";
       ModelChatHistoryItem.parts := map part_out (Content.parts content) |} in
  model w = Some m ->
  chat w = Some c ->
  chat_getHistory sdk c (sdk_state w) = (inr history, v) ->
  fst (getChatHistory sdk w) = Resolved (map turn_out history)
  /\ (Forall
        (fun content =>
           Forall
             (fun part =>
                forall blob, Part.inlineData part = Some blob ->
                  GenerativeContentBlob.mimeType blob <> ""
                  /\ Part.text part = None)
             (Content.parts content))
        history ->
      map turn_out history = map spec_history_item history).
Proof.
  intros part_out turn_out Hm Hc Hh. split.
  - unfold getChatHistory, bind at 1, require_model. rewrite Hm.
    unfold bind at 1, require_chat. rewrite Hc.
    unfold bind, await. rewrite Hh. unfold ret. simpl. f_equal.
    rewrite for_of_push. simpl. apply map_ext. intro content.
    unfold history_item, turn_out. f_equal.
    rewrite for_of_push. simpl. apply map_ext. intro part.
    apply history_part_cases.
  - intro Hwf. apply map_ext_in. intros content Hin.
    rewrite Forall_forall in Hwf. specialize (Hwf content Hin).
    unfold turn_out, spec_history_item. f_equal.
    apply map_ext_in. intros part Hp.
    rewrite Forall_forall in Hwf. specialize (Hwf part Hp).
    unfold part_out, spec_history_part. cbv zeta.
    destruct part as [text [blob|]]; simpl in *.
    + destruct (Hwf blob eq_refl) as (Hmime & ->).
      now rewrite (eqb_false_of_neq Hmime).
    + destruct text as [t|]; [|reflexivity].
      destruct (t =? "") eqn:Ht; [|reflexivity].
      apply String.eqb_eq in Ht. now rewrite Ht.
Qed.

(** *** Where failures come from *)

Lemma ret_foreign_only (A : Type) (a : A) :
  foreign_only (ret (V:=V) (U:=U) (Client:=Client) (Model:=Model) (Chat:=Chat)
                  (number:=number) E a).
Proof. intros w message. discriminate. Qed.

Lemma bind_foreign_only (A B : Type)
  (c : M V U E Client Model Chat number A)
  (k : A -> M V U E Client Model Chat number B) :
  foreign_only c -> (forall a, foreign_only (k a)) -> foreign_only (bind c k).
Proof.
  intros Hc Hk w message. unfold bind.
  destruct (c w) as [[a|x] w'] eqn:Hcw.
  - apply Hk.
  - simpl. intro H. injection H as ->.
    apply (Hc w message). now rewrite Hcw.
Qed.

Lemma await_foreign_only (A : Type) (ev : Event Client Model Chat number)
  (call : Vendor V E A) :
  foreign_only (await (U:=U) ev call).
Proof.
  intros w message. unfold await.
  now destruct (call (sdk_state w)) as [[e|a] v].
Qed.

Lemma text_foreign_only (response : Response E) :
  foreign_only (text (V:=V) (U:=U) (Client:=Client) (Model:=Model)
                  (Chat:=Chat) (number:=number) response).
Proof. intros w message. now destruct response. Qed.

Lemma notify_foreign_only (options : option (SendMessageOptions.t U E))
  (chunkText : string) :
  foreign_only (notify (V:=V) (Client:=Client) (Model:=Model) (Chat:=Chat)
                  (number:=number) options chunkText).
Proof.
  intros w message. destruct options as [[images [cb|]]|]; simpl;
    try discriminate.
  now destruct (cb chunkText (caller w)) as [[e|x] u].
Qed.

Lemma consume_foreign_only (options : option (SendMessageOptions.t U E))
  (stream : Stream E) (responseText : string) :
  foreign_only (consume (V:=V) (Client:=Client) (Model:=Model) (Chat:=Chat)
                  (number:=number) options stream responseText).
Proof.
  revert responseText.
  induction stream as [|chunk rest IH|e]; intro acc; simpl.
  - apply ret_foreign_only.
  - apply bind_foreign_only; [apply text_foreign_only | intro chunkText].
    apply bind_foreign_only; [apply notify_foreign_only | intros _; apply IH].
  - intros w message. discriminate.
Qed.

Lemma set_generativeAI_foreign_only (ai : Client) :
  foreign_only (set_generativeAI (V:=V) (U:=U) (Model:=Model) (Chat:=Chat)
                  (number:=number) E ai).
Proof. intros w message. discriminate. Qed.

Lemma set_model_foreign_only (m : Model) :
  foreign_only (set_model (V:=V) (U:=U) (Client:=Client) (Chat:=Chat)
                  (number:=number) E m).
Proof. intros w message. discriminate. Qed.

Lemma set_chat_foreign_only (c : Chat) :
  foreign_only (set_chat (V:=V) (U:=U) (Client:=Client) (Model:=Model)
                  (number:=number) E c).
Proof. intros w message. discriminate. Qed.

Lemma bind_assoc (A B C : Type) (c : M V U E Client Model Chat number A)
  (k : A -> M V U E Client Model Chat number B)
  (k' : B -> M V U E Client Model Chat number C) (w : World) :
  bind (bind c k) k' w = bind c (fun a => bind (k a) k') w.
Proof.
  unfold bind. destruct (c w) as [[a|x] w1]; [|reflexivity].
  reflexivity.
Qed.

Lemma bind_require_model (A : Type)
  (k : Model -> M V U E Client Model Chat number A) (w : World) :
  bind (require_model (Chat:=Chat) (number:=number) E) k w =
  match model w with
  | Some m => k m w
  | None => (Rejected NotInitializedError, w)
  end.
Proof. unfold bind, require_model. now destruct (model w). Qed.

Lemma bind_require_chat (A : Type)
  (k : Chat -> M V U E Client Model Chat number A) (w : World) :
  bind (require_chat (Model:=Model) (number:=number) E) k w =
  match chat w with
  | Some c => k c w
  | None => (Rejected ChatNotInitializedError, w)
  end.
Proof. unfold bind, require_chat. now destruct (chat w). Qed.

Ltac foreign :=
  cbv zeta;
  repeat first
    [ apply bind_foreign_only; [|intro]
    | apply await_foreign_only
    | apply text_foreign_only
    | apply consume_foreign_only
    | apply ret_foreign_only
    | apply set_generativeAI_foreign_only
    | apply set_model_foreign_only
    | apply set_chat_foreign_only
    | match goal with
      | |- foreign_only (if ?b then _ else _) => destruct b
      end ].

Ltac by_foreign H :=
  exfalso; revert H;
  match goal with
  | |- fst (?c ?w) = Rejected (Error ?message) -> False =>
      let F := fresh "F" in
      cut (foreign_only c); [intro F; exact (F w message) | solve [foreign]]
  end.

Lemma perform_error (call : Call U E number) (w : World) (message : string) :
  fst (perform sdk call w) = Rejected (Error message) ->
  (message = "Model not initialized" /\ model w = None)
  \/ (message = "Chat not initialized" /\ chat w = None /\ model w <> None).
Proof.
  intro H.
  destruct call; unfold perform in H;
    try (unfold initModel in H; by_foreign H);
    unfold sendMessage, countTokens, initChat, sendChatMessage,
      countChatTokens, getChatHistory in H;
    rewrite bind_assoc, bind_require_model in H;
    (destruct (model w) as [m|] eqn:Hm;
     [| left; injection H as <-; now split ]);
    try (by_foreign H);
    rewrite bind_assoc, bind_require_chat in H;
    (destruct (chat w) as [c|] eqn:Hc;
     [| right; injection H as <-; repeat split; congruence ]);
    by_foreign H.
Qed.

(** C1. Without a model handle, [sendMessage], [countTokens], [initChat],
    [sendChatMessage], [countChatTokens] and [getChatHistory] reject with the
    error "Model not initialized", whatever their arguments, and change
    nothing; with a model handle and no conversation handle, the last three
    reject with the error "Chat not initialized".  No call of a public method
    rejects with any other error of this module: every other rejection
    carries what the SDK or the callback threw. *)
Theorem lifecycle_guards :
  (forall (w : World) (inputText : string)
      (options : option (SendMessageOptions.t U E))
      (countOptions : option CountTokensOptions.t)
      (chatHistory : option (list ChatHistoryItem.t))
      (chatOptions : option CountChatTokensOptions.t),
      model w = None ->
      sendMessage sdk inputText options w = (Rejected NotInitializedError, w)
      /\ countTokens sdk inputText countOptions w
         = (Rejected NotInitializedError, w)
      /\ initChat sdk chatHistory w = (Rejected NotInitializedError, w)
      /\ sendChatMessage sdk inputText options w
         = (Rejected NotInitializedError, w)
      /\ countChatTokens sdk chatOptions w = (Rejected NotInitializedError, w)
      /\ getChatHistory sdk w = (Rejected NotInitializedError, w))
  /\ (forall (w : World) (m : Model) (inputText : string)
         (options : option (SendMessageOptions.t U E))
         (chatOptions : option CountChatTokensOptions.t),
         model w = Some m ->
         chat w = None ->
         sendChatMessage sdk inputText options w
         = (Rejected ChatNotInitializedError, w)
         /\ countChatTokens sdk chatOptions w
            = (Rejected ChatNotInitializedError, w)
         /\ getChatHistory sdk w = (Rejected ChatNotInitializedError, w))
  /\ (forall (call : Call U E number) (w : World) (message : string),
         fst (perform sdk call w) = Rejected (Error message) ->
         Error (E:=E) message = NotInitializedError /\ model w = None
         \/ Error (E:=E) message = ChatNotInitializedError /\ chat w = None).
Proof.
  split; [|split].
  - intros w inputText options countOptions chatHistory chatOptions Hm.
    unfold sendMessage, countTokens, initChat, sendChatMessage,
      countChatTokens, getChatHistory.
    rewrite !bind_require_model, Hm. repeat split.
  - intros w m inputText options chatOptions Hm Hc.
    unfold sendChatMessage, countChatTokens, getChatHistory.
    rewrite !bind_require_model, Hm, !bind_require_chat, Hc. repeat split.
  - intros call w message H.
    destruct (perform_error call w H) as [(-> & Hm)|(-> & Hc & _)].
    + now left.
    + now right.
Qed.

(** *** The handles along a run *)

Lemma bind_keeps_handles (A B : Type)
  (c : M V U E Client Model Chat number A)
  (k : A -> M V U E Client Model Chat number B) :
  keeps_handles c -> (forall a, keeps_handles (k a)) -> keeps_handles (bind c k).
Proof.
  intros Hc Hk w. unfold bind. specialize (Hc w).
  destruct (c w) as [[a|x] w']; simpl in Hc.
  - now rewrite Hk.
  - exact Hc.
Qed.

Lemma await_keeps_handles (A : Type) (ev : Event Client Model Chat number)
  (call : Vendor V E A) :
  keeps_handles (await (U:=U) ev call).
Proof.
  intro w. unfold await. now destruct (call (sdk_state w)) as [[e|a] v].
Qed.

Lemma text_keeps_handles (response : Response E) :
  keeps_handles (text (V:=V) (U:=U) (Client:=Client) (Model:=Model)
                   (Chat:=Chat) (number:=number) response).
Proof. intro w. now rewrite text_world. Qed.

Lemma ret_keeps_handles (A : Type) (a : A) :
  keeps_handles (ret (V:=V) (U:=U) (Client:=Client) (Model:=Model)
                   (Chat:=Chat) (number:=number) E a).
Proof. intro w. reflexivity. Qed.

Lemma require_model_keeps_handles :
  keeps_handles (require_model (V:=V) (U:=U) (Client:=Client) (Model:=Model)
                   (Chat:=Chat) (number:=number) E).
Proof. intro w. unfold require_model. now destruct (model w). Qed.

Lemma require_chat_keeps_handles :
  keeps_handles (require_chat (V:=V) (U:=U) (Client:=Client) (Model:=Model)
                   (Chat:=Chat) (number:=number) E).
Proof. intro w. unfold require_chat. now destruct (chat w). Qed.

Lemma notify_keeps_handles (options : option (SendMessageOptions.t U E))
  (chunkText : string) :
  keeps_handles (notify (V:=V) (Client:=Client) (Model:=Model) (Chat:=Chat)
                   (number:=number) options chunkText).
Proof.
  intro w. destruct options as [[images [cb|]]|]; simpl; try reflexivity.
  now destruct (cb chunkText (caller w)) as [[e|x] u].
Qed.

Lemma consume_keeps_handles (options : option (SendMessageOptions.t U E))
  (stream : Stream E) (responseText : string) :
  keeps_handles (consume (V:=V) (Client:=Client) (Model:=Model) (Chat:=Chat)
                   (number:=number) options stream responseText).
Proof.
  revert responseText.
  induction stream as [|chunk rest IH|e]; intro acc; simpl.
  - apply ret_keeps_handles.
  - apply bind_keeps_handles; [apply text_keeps_handles | intro chunkText].
    apply bind_keeps_handles; [apply notify_keeps_handles | intros _; apply IH].
  - intro w. reflexivity.
Qed.

Ltac framed :=
  cbv zeta;
  repeat first
    [ apply bind_keeps_handles; [|intro]
    | apply await_keeps_handles
    | apply text_keeps_handles
    | apply consume_keeps_handles
    | apply ret_keeps_handles
    | apply require_model_keeps_handles
    | apply require_chat_keeps_handles
    | match goal with
      | |- keeps_handles (if ?b then _ else _) => destruct b
      end ].

Lemma initModel_handles (params : ModelParams.t number) (w : World) :
  let w' := snd (initModel sdk params w) in
  chat w' = chat w /\ (model w <> None -> model w' <> None).
Proof.
  unfold initModel, bind, await, set_generativeAI, set_model. cbv zeta.
  destruct (new_GoogleGenerativeAI sdk _ (sdk_state w)) as [[e|ai] v]; simpl;
    [now split|].
  match goal with
  | |- context [ai_getGenerativeModel sdk ai ?p v] =>
      destruct (ai_getGenerativeModel sdk ai p v) as [[e|m] v']
  end; simpl; split; congruence.
Qed.

Lemma initChat_handles (chatHistory : option (list ChatHistoryItem.t))
  (w : World) :
  let w' := snd (initChat sdk chatHistory w) in
  model w' = model w
  /\ (model w = None -> chat w' = chat w)
  /\ (handles_ok w = true -> handles_ok w' = true).
Proof.
  unfold initChat. cbv zeta. rewrite bind_require_model.
  destruct (model w) as [m|] eqn:Hm; simpl; [|now rewrite Hm].
  unfold bind, await, set_chat.
  match goal with
  | |- context [model_startChat sdk m ?p (sdk_state w)] =>
      destruct (model_startChat sdk m p (sdk_state w)) as [[e|c] v]
  end; simpl; unfold handles_ok; simpl; rewrite Hm; repeat split;
    congruence.
Qed.

Lemma bind_ret_world (A B : Type) (c : M V U E Client Model Chat number A)
  (f : A -> B) (w : World) :
  snd (bind c (fun a => ret E (f a)) w) = snd (c w).
Proof. unfold bind. now destruct (c w) as [[a|x] w']. Qed.

Lemma perform_handles (call : Call U E number) (w : World) :
  let w' := snd (perform sdk call w) in
  (model w <> None -> model w' <> None)
  /\ (handles_ok w = true -> handles_ok w' = true).
Proof.
  assert (Hkeep : forall (A : Type) (c : M V U E Client Model Chat number A),
             keeps_handles c ->
             (model w <> None -> model (snd (c w)) <> None)
             /\ (handles_ok w = true -> handles_ok (snd (c w)) = true)).
  { intros A c Hc. specialize (Hc w). unfold handles in Hc.
    injection Hc as _ Hm Hch. unfold handles_ok. rewrite Hm, Hch. now split. }
  destruct call; cbv zeta; unfold perform; rewrite bind_ret_world.
  - pose proof (initModel_handles params w) as (Hch & Hm).
    split; [exact Hm|].
    unfold handles_ok. rewrite Hch.
    destruct (chat w); [|reflexivity].
    destruct (model w) eqn:Hw; [|discriminate]. intros _.
    destruct (model (snd (initModel sdk params w))); [reflexivity|].
    exfalso. apply Hm; [discriminate | reflexivity].
  - apply Hkeep. unfold sendMessage. framed.
  - apply Hkeep. unfold countTokens. framed.
  - pose proof (initChat_handles chatHistory w) as (Hm & _ & Hok).
    rewrite Hm. now split.
  - apply Hkeep. unfold sendChatMessage. framed.
  - apply Hkeep. unfold countChatTokens. framed.
  - apply Hkeep. unfold getChatHistory. framed.
Qed.

(** C10. In every state reached from the uninitialised one by any sequence
    of calls of the public methods, whether they succeed or fail, a
    conversation handle is there only if a model handle is.  No call clears
    the model handle, and [initChat] leaves the conversation handle alone
    when there is no model handle. *)
Theorem chat_handle_needs_model_handle :
  (forall (calls : list (Call U E number)) (v : V) (u : U),
      handles_ok (run sdk calls (initial v u)) = true)
  /\ (forall (call : Call U E number) (w : World),
         model w <> None -> model (snd (perform sdk call w)) <> None)
  /\ (forall (chatHistory : option (list ChatHistoryItem.t)) (w : World),
         model w = None -> chat (snd (initChat sdk chatHistory w)) = chat w).
Proof.
  split; [|split].
  - intros calls v u.
    assert (Hinv : forall w : World,
               handles_ok w = true -> handles_ok (run sdk calls w) = true).
    { induction calls as [|call calls IH]; intros w Hw; [exact Hw|].
      simpl. apply IH. now apply perform_handles. }
    now apply Hinv.
  - intros call w. apply perform_handles.
  - intros chatHistory w. apply initChat_handles.
Qed.

(** ** Beyond the lifecycle: what each method does with the SDK's answers *)

(** *** Preimages of the enum mappings *)

Ltac eqb_cases :=
  repeat match goal with
         | |- context [if ?s =? ?t then _ else _] =>
             let H := fresh "Heq" in
             destruct (s =? t) eqn:H; [apply String.eqb_eq in H|]
         end.

(** X1. Each SDK harm category other than the unspecified one comes from
    exactly one string, the member of the same name, and so does each
    threshold the level mapping can return other than the unspecified one,
    except BLOCK_MEDIUM_AND_ABOVE, which comes from exactly two. *)
Theorem enum_mappings_preimages (harmCategory : string) (level : option string) :
  (mapHarmCategory harmCategory = HARM_CATEGORY_HARASSMENT
   <-> harmCategory = SafetySettingHarmCategory.HARASSMENT)
  /\ (mapHarmCategory harmCategory = HARM_CATEGORY_HATE_SPEECH
      <-> harmCategory = SafetySettingHarmCategory.HATE_SPEECH)
  /\ (mapHarmCategory harmCategory = HARM_CATEGORY_SEXUALLY_EXPLICIT
      <-> harmCategory = SafetySettingHarmCategory.SEXUALLY_EXPLICIT)
  /\ (mapHarmCategory harmCategory = HARM_CATEGORY_DANGEROUS_CONTENT
      <-> harmCategory = SafetySettingHarmCategory.DANGEROUS_CONTENT)
  /\ (mapSafetySettingLevel level = BLOCK_NONE
      <-> level = Some SafetySettingLevel.NONE)
  /\ (mapSafetySettingLevel level = BLOCK_ONLY_HIGH
      <-> level = Some SafetySettingLevel.ONLY_HIGH)
  /\ (mapSafetySettingLevel level = BLOCK_MEDIUM_AND_ABOVE
      <-> level = Some SafetySettingLevel.MEDIUM_AND_ABOVE
          \/ level = Some SafetySettingLevel.LOW_AND_ABOVE).
Proof.
  repeat split;
    try (unfold mapHarmCategory; eqb_cases; intro; subst;
         solve [reflexivity | discriminate]);
    try (intros ->; reflexivity);
    try (destruct level as [l|]; simpl; [|discriminate];
         eqb_cases; intro; subst; solve [reflexivity | discriminate]).
  - destruct level as [l|]; simpl; [|discriminate].
    eqb_cases; intro; subst;
      solve [now left | now right | discriminate].
  - intros [->| ->]; reflexivity.
Qed.

(** *** [initModel] *)

Lemma safetySettings_translated (settings : option SafetySettings) :
  match settings with
  | Some settings =>
      for_of settings
        (fun safetySettings '(harmCategory, harmBlockThreshold) =>
           let modelHarmCategory := mapHarmCategory harmCategory in
           let modelSafetySettingLevel :=
             mapSafetySettingLevel harmBlockThreshold in
           push safetySettings
             {| SafetySetting.category := modelHarmCategory;
                SafetySetting.threshold := modelSafetySettingLevel |})
        []
  | None => []
  end
  = map (fun entry =>
           {| SafetySetting.category := mapHarmCategory (fst entry);
              SafetySetting.threshold := mapSafetySettingLevel (snd entry) |})
      (or_empty settings).
Proof.
  destruct settings as [settings|]; [|reflexivity]. simpl.
  unfold for_of, push.
  match goal with
  | |- fold_left ?body settings [] = map ?f settings =>
      assert (Hacc : forall acc,
                 fold_left body settings acc = (acc ++ map f settings)%list)
  end.
  { induction settings as [|[harmCategory level] settings IH]; intro acc; simpl.
    - now rewrite app_nil_r.
    - rewrite IH, <- app_assoc. reflexivity. }
  apply Hacc.
Qed.

Section InitModel.

Variable params : ModelParams.t number.
Variable w : World.

(** The argument [initModel] builds for [getGenerativeModel]. *)
Let request : GenerativeModelParams.t number :=
  {| GenerativeModelParams.model := ModelParams.modelName params;
     GenerativeModelParams.safetySettings :=
       map (fun entry =>
              {| SafetySetting.category := mapHarmCategory (fst entry);
                 SafetySetting.threshold := mapSafetySettingLevel (snd entry) |})
         (or_empty (ModelParams.safetySettings params));
     GenerativeModelParams.generationConfig :=
       {| GenerationConfig.temperature := ModelParams.temperature params;
          GenerationConfig.topK := ModelParams.topK params;
          GenerationConfig.topP := ModelParams.topP params;
          GenerationConfig.maxOutputTokens := ModelParams.maxOutputTokens params;
          GenerationConfig.stopSequences := ModelParams.stopSequences params |} |}.

Lemma initModel_without_client (e : E) (v : V) :
  new_GoogleGenerativeAI sdk (ModelParams.apiKey params) (sdk_state w)
  = (inl e, v) ->
  initModel sdk params w
  = (Rejected (Foreign e),
     after_call (NewGoogleGenerativeAI (ModelParams.apiKey params)) v w).
Proof.
  intro Hnew. unfold initModel, bind, await. now rewrite Hnew.
Qed.

Lemma initModel_with_client (ai : Client) (v : V) :
  new_GoogleGenerativeAI sdk (ModelParams.apiKey params) (sdk_state w)
  = (inr ai, v) ->
  initModel sdk params w
  = bind (await (GetGenerativeModel ai request)
            (ai_getGenerativeModel sdk ai request))
      (fun m => set_model E m)
      (snd (set_generativeAI E ai
              (after_call (NewGoogleGenerativeAI (ModelParams.apiKey params))
                 v w))).
Proof.
  intro Hnew. unfold initModel. cbv zeta. rewrite safetySettings_translated.
  fold request. unfold bind at 1, await at 1. rewrite Hnew.
  reflexivity.
Qed.

(** X2. Once the client is constructed from the API key, [initModel] asks
    it for a model with the model name, one safety setting per key of
    [safetySettings] in the order of the keys (none when there are no
    settings), each key and level sent through the two enum mappings, and the
    five generation parameters as they were given.  It ends as the SDK
    answers that very request, in the state that answer leaves: resolved with
    the model returned as the model handle, or rejected with the exception
    thrown and the model handle as it was; these two are the only SDK calls
    it makes. *)
Theorem initModel_hands_over_translated_parameters (ai : Client) (v : V) :
  new_GoogleGenerativeAI sdk (ModelParams.apiKey params) (sdk_state w)
  = (inr ai, v) ->
  trace (snd (initModel sdk params w))
  = (trace w
       ++ [ NewGoogleGenerativeAI (ModelParams.apiKey params);
            GetGenerativeModel ai request ])%list
  /\ (forall (result : E + Model) (v' : V),
         ai_getGenerativeModel sdk ai request v = (result, v') ->
         initModel sdk params w
         = (match result with
            | inr _ => Resolved tt
            | inl e => Rejected (Foreign e)
            end,
            {| generativeAI := Some ai;
               model := match result with
                        | inr m => Some m
                        | inl _ => model w
                        end;
               chat := chat w;
               sdk_state := v';
               caller := caller w;
               trace :=
                 trace w
                 ++ [ NewGoogleGenerativeAI (ModelParams.apiKey params);
                      GetGenerativeModel ai request ] |})).
Proof.
  intro Hnew. rewrite (initModel_with_client Hnew).
  unfold bind, await. simpl. split.
  - destruct (ai_getGenerativeModel sdk ai request v) as [[e|m] v']; simpl;
      now rewrite <- app_assoc.
  - intros result v' Hget. rewrite Hget.
    destruct result as [e|m]; unfold after_call, set_model; simpl;
      now rewrite <- app_assoc.
Qed.

(** X3. [initModel] replaces the handles step by step and never touches the
    conversation handle.  If the constructor throws, the promise rejects with
    that exception, no handle changes and no model is asked for.  If it
    returns a client, the client handle is replaced at once; the model handle
    is replaced by the model the SDK returns, and is left as it was, next to
    the new client, when [getGenerativeModel] throws, in which case the
    promise rejects with that exception. *)
Theorem initModel_outcomes :
  let r := initModel sdk params w in
  chat (snd r) = chat w
  /\ (forall (e : E) (v : V),
         new_GoogleGenerativeAI sdk (ModelParams.apiKey params) (sdk_state w)
         = (inl e, v) ->
         fst r = Rejected (Foreign e)
         /\ handles (snd r) = handles w
         /\ trace (snd r)
            = (trace w
                 ++ [ NewGoogleGenerativeAI (ModelParams.apiKey params) ])%list)
  /\ (forall (ai : Client) (v : V) (result : E + Model) (v' : V),
         new_GoogleGenerativeAI sdk (ModelParams.apiKey params) (sdk_state w)
         = (inr ai, v) ->
         ai_getGenerativeModel sdk ai request v = (result, v') ->
         generativeAI (snd r) = Some ai
         /\ sdk_state (snd r) = v'
         /\ match result with
            | inr m => fst r = Resolved tt /\ model (snd r) = Some m
            | inl e => fst r = Rejected (Foreign e) /\ model (snd r) = model w
            end).
Proof.
  cbv zeta. split; [apply initModel_handles | split].
  - intros e v Hnew. rewrite (initModel_without_client Hnew). now repeat split.
  - intros ai v result v' Hnew Hget. rewrite (initModel_with_client Hnew).
    unfold bind, await. simpl. rewrite Hget.
    destruct result as [e|m]; now repeat split.
Qed.

End InitModel.

(** *** [initChat] *)

Lemma initChat_seed (chatHistory : option (list ChatHistoryItem.t)) :
  match chatHistory with
  | Some items =>
      for_of items
        (fun modelChatHistory chatHistoryItem =>
           push modelChatHistory (seed_turn chatHistoryItem))
        []
  | None => []
  end = map seed_turn (or_empty chatHistory).
Proof.
  destruct chatHistory as [items|]; [|reflexivity]. now rewrite for_of_push.
Qed.

Lemma initChat_with_model (chatHistory : option (list ChatHistoryItem.t))
  (w : World) (m : Model) :
  let startChatParams :=
    {| StartChatParams.history := map seed_turn (or_empty chatHistory) |} in
  model w = Some m ->
  initChat sdk chatHistory w
  = bind (await (StartChat m startChatParams)
            (model_startChat sdk m startChatParams))
      (fun c => set_chat E c) w.
Proof.
  intros startChatParams Hm. unfold initChat. cbv zeta.
  rewrite bind_require_model, Hm, initChat_seed. reflexivity.
Qed.

(** X4. With a model handle, [initChat] settles as [startChat] does on the
    translated seed history: when the SDK returns a conversation, the promise
    resolves and that conversation replaces the conversation handle; when it
    throws, the promise rejects with that exception and the conversation
    handle, hence any conversation started earlier, stays as it was.  The
    client and model handles are untouched either way. *)
Theorem initChat_outcomes (chatHistory : option (list ChatHistoryItem.t))
  (w : World) (m : Model) (result : E + Chat) (v : V) :
  let r := initChat sdk chatHistory w in
  model w = Some m ->
  model_startChat sdk m
    {| StartChatParams.history := map seed_turn (or_empty chatHistory) |}
    (sdk_state w) = (result, v) ->
  generativeAI (snd r) = generativeAI w
  /\ model (snd r) = Some m
  /\ sdk_state (snd r) = v
  /\ match result with
     | inr c => fst r = Resolved tt /\ chat (snd r) = Some c
     | inl e => fst r = Rejected (Foreign e) /\ chat (snd r) = chat w
     end.
Proof.
  intros r Hm Hstart. unfold r. rewrite (initChat_with_model _ _ Hm).
  unfold bind, await. rewrite Hstart.
  destruct result as [e|c]; simpl; now repeat split.
Qed.

(** *** Single-shot answers *)

(** X5. Without a callback, [sendMessage] makes one SDK call,
    [generateContent] on the text followed by the images, and nothing else:
    it resolves to the text of the response, rejects with the exception of
    the call if the call throws and with the exception of [text()] if reading
    the text throws, and leaves the handles and the caller's state alone.
    [sendChatMessage] does the same with [sendMessage] of the conversation
    handle. *)
Theorem single_shot_settles_as_the_sdk
  (inputText : string) (images : option (list GenerativeContentBlob.t))
  (w : World) (m : Model) :
  let options : option (SendMessageOptions.t U E) :=
    Some {| SendMessageOptions.images := images;
            SendMessageOptions.onResponseChunk := None |} in
  let request :=
    Str inputText
    :: map (fun image =>
              Prt {| Part.text := None; Part.inlineData := Some image |})
         (or_empty images) in
  let outcome (result : E + Response E) : Outcome E string :=
    match result with
    | inr response => settle response
    | inl e => Rejected (Foreign e)
    end in
  model w = Some m ->
  (forall (result : E + Response E) (v : V),
      model_generateContent sdk m request (sdk_state w) = (result, v) ->
      sendMessage sdk inputText options w
      = (outcome result, after_call (GenerateContent m request) v w))
  /\ (forall (c : Chat) (result : E + Response E) (v : V),
         chat w = Some c ->
         chat_sendMessage sdk c request (sdk_state w) = (result, v) ->
         sendChatMessage sdk inputText options w
         = (outcome result, after_call (ChatSendMessage c request) v w)).
Proof.
  intros options request outcome Hm.
  assert (Hreq : request = request_of inputText (imageParts_of (or_empty images))).
  { unfold request, request_of. now rewrite imageParts_of_map, map_map. }
  rewrite Hreq. unfold options. split.
  - intros result v Hcall. unfold sendMessage.
    rewrite bind_require_model, Hm. simpl. unfold bind, await.
    rewrite Hcall. now destruct result as [e|[e|t]].
  - intros c result v Hc Hcall. unfold sendChatMessage.
    rewrite bind_require_model, Hm, bind_require_chat, Hc. simpl.
    unfold bind, await. rewrite Hcall. now destruct result as [e|[e|t]].
Qed.

(** *** Streams that break and callbacks that throw *)

Section Breaking.

Variable images : option (list GenerativeContentBlob.t).
Variable onResponseChunk : Callback.

Let options : option (SendMessageOptions.t U E) :=
  Some {| SendMessageOptions.images := images;
          SendMessageOptions.onResponseChunk := Some onResponseChunk |}.

Lemma consume_broken (stream : Stream E) (responseText : string) (w : World)
  (e : E) (u : U) :
  failure stream = Some e ->
  accepts onResponseChunk (received stream) (caller w) = Some u ->
  let r := consume options stream responseText w in
  fst r = Rejected (Foreign e)
  /\ trace (snd r) = (trace w ++ map ResponseChunk (received stream))%list
  /\ caller (snd r) = u.
Proof.
  revert responseText w.
  induction stream as [|[e0|chunkText] rest IH|e0]; intros acc w Hf Ha;
    cbv zeta; simpl in Hf, Ha; try discriminate.
  - injection Hf as ->. injection Ha as <-. simpl.
    now rewrite app_nil_r.
  - unfold options. rewrite consume_next. simpl received.
    destruct (onResponseChunk chunkText (caller w)) as [[e1|x] u1];
      [discriminate|].
    destruct (IH (acc ++ chunkText)
                (after_callback (ResponseChunk chunkText) u1 w) Hf Ha)
      as (Hr & Ht & Hu).
    fold options. rewrite Hr, Ht, Hu. simpl.
    now rewrite <- app_assoc.
  - injection Hf as ->. injection Ha as <-. simpl.
    now rewrite app_nil_r.
Qed.

Lemma consume_refused (before : list string) (chunkText : string)
  (later : list string) (e : E) (u1 u2 : U) :
  forall (stream : Stream E) (responseText : string) (w : World),
    received stream = (before ++ chunkText :: later)%list ->
    accepts onResponseChunk before (caller w) = Some u1 ->
    onResponseChunk chunkText u1 = (inl e, u2) ->
    let r := consume options stream responseText w in
    fst r = Rejected (Foreign e)
    /\ trace (snd r)
       = (trace w ++ map ResponseChunk (before ++ [chunkText]))%list
    /\ caller (snd r) = u2.
Proof.
  induction before as [|first before IH]; intros stream acc w Hr Ha Hcb;
    cbv zeta;
    (destruct stream as [|[e0|t0] rest|e0]; simpl in Hr; try discriminate);
    injection Hr as -> Hrest; unfold options; rewrite consume_next;
    simpl in Ha.
  - injection Ha as <-. rewrite Hcb. now repeat split.
  - destruct (onResponseChunk first (caller w)) as [[e1|x] u0];
      [discriminate|].
    destruct (IH rest (acc ++ first)
                (after_callback (ResponseChunk first) u0 w) Hrest Ha Hcb)
      as (Hres & Ht & Hu).
    fold options. rewrite Hres, Ht, Hu. simpl.
    now rewrite <- app_assoc.
Qed.

End Breaking.

Section Delivery.

Variable images : option (list GenerativeContentBlob.t).
Variable onResponseChunk : Callback.

Let options : option (SendMessageOptions.t U E) :=
  Some {| SendMessageOptions.images := images;
          SendMessageOptions.onResponseChunk := Some onResponseChunk |}.

Lemma consume_accepted (stream : Stream E) (responseText : string) (w : World)
  (u : U) :
  accepts onResponseChunk (received stream) (caller w) = Some u ->
  let r := consume options stream responseText w in
  trace (snd r) = (trace w ++ map ResponseChunk (received stream))%list
  /\ caller (snd r) = u
  /\ fst r = match failure stream with
             | None =>
                 Resolved (responseText ++ String.concat "" (received stream))
             | Some e => Rejected (Foreign e)
             end.
Proof.
  revert responseText w.
  induction stream as [|[e0|chunkText] rest IH|e0]; intros acc w Ha;
    cbv zeta; simpl in Ha.
  - injection Ha as <-. simpl. now rewrite app_nil_r, string_app_nil_r.
  - injection Ha as <-. simpl. now rewrite app_nil_r.
  - unfold options. rewrite consume_next. simpl received. simpl failure.
    destruct (onResponseChunk chunkText (caller w)) as [[e1|x] u1];
      [discriminate|].
    destruct (IH (acc ++ chunkText)
                (after_callback (ResponseChunk chunkText) u1 w) Ha)
      as (Ht & Hu & Hr).
    fold options. rewrite Ht, Hu, Hr. simpl trace.
    rewrite <- app_assoc, concat_cons, string_app_assoc. now repeat split.
  - injection Ha as <-. simpl. now rewrite app_nil_r.
Qed.

Lemma consume_delivers_all_read (ev : Event Client Model Chat number)
  (stream : Stream E) (v : V) (w : World) :
  delivers_all_read ev onResponseChunk stream w
    (consume options stream "" (after_call ev v w)).
Proof.
  split.
  - intros u Ha.
    destruct (consume_accepted stream "" (after_call ev v w) Ha)
      as (Ht & Hu & Hr).
    rewrite Ht, Hu, Hr. simpl. rewrite <- app_assoc. now repeat split.
  - intros before chunkText later e u1 u2 Hrec Ha Hcb.
    destruct (consume_refused images onResponseChunk before chunkText later
                stream "" (after_call ev v w) Hrec Ha Hcb) as (Hr & Ht & Hu).
    fold options in Hr, Ht, Hu. rewrite Hr, Ht, Hu. simpl.
    rewrite <- app_assoc. now repeat split.
Qed.

End Delivery.

(** C2. A call of [sendMessage], and of [sendChatMessage], with a callback
    invokes it once per chunk it reads from the stream the SDK returned for
    the request (the text followed by the images), in the order of the
    stream and with the chunk's text, and resolves to the concatenation of
    all chunk texts in that order.  [streams_in_order] says so for the call
    that resolves, and that it does resolve when the stream ends well and the
    callback never throws; [delivers_all_read] says, for every call, on which
    chunks exactly the callback has been invoked: all that were read when the
    callback took them, whether the stream then ended or broke, and those up
    to the one on which the callback threw otherwise. *)
Theorem streaming_delivers_chunks_in_order
  (inputText : string) (images : option (list GenerativeContentBlob.t))
  (onResponseChunk : Callback) (w : World) (m : Model) (stream : Stream E)
  (v : V) :
  let options :=
    Some {| SendMessageOptions.images := images;
            SendMessageOptions.onResponseChunk := Some onResponseChunk |} in
  let request :=
    Str inputText
    :: map (fun image =>
              Prt {| Part.text := None; Part.inlineData := Some image |})
         (or_empty images) in
  model w = Some m ->
  (model_generateContentStream sdk m request (sdk_state w) = (inr stream, v) ->
   streams_in_order (GenerateContentStream m request) onResponseChunk stream w
     (sendMessage sdk inputText options w)
   /\ delivers_all_read (GenerateContentStream m request) onResponseChunk
        stream w (sendMessage sdk inputText options w))
  /\ (forall c : Chat,
         chat w = Some c ->
         chat_sendMessageStream sdk c request (sdk_state w) = (inr stream, v) ->
         streams_in_order (ChatSendMessageStream c request) onResponseChunk
           stream w (sendChatMessage sdk inputText options w)
         /\ delivers_all_read (ChatSendMessageStream c request)
              onResponseChunk stream w
              (sendChatMessage sdk inputText options w)).
Proof.
  intros options request Hm.
  assert (Hreq : request = request_of inputText (imageParts_of (or_empty images))).
  { unfold request, request_of. now rewrite imageParts_of_map, map_map. }
  rewrite Hreq. unfold options. split.
  - intro Hs. rewrite (sendMessage_streams _ _ _ _ Hm Hs).
    split; [apply consume_in_order | apply consume_delivers_all_read].
  - intros c Hc Hs. rewrite (sendChatMessage_streams _ _ _ _ Hm Hc Hs).
    split; [apply consume_in_order | apply consume_delivers_all_read].
Qed.

(** X6. When the stream the SDK returned breaks, because the iterator throws
    or because [text()] throws on a chunk, a streaming [sendMessage] or
    [sendChatMessage] whose callback took every chunk before the break
    rejects with that exception: the callback has been invoked on each of
    those chunks, in order, and the text accumulated so far is not
    returned. *)
Theorem broken_stream_rejects_after_delivery
  (inputText : string) (images : option (list GenerativeContentBlob.t))
  (onResponseChunk : Callback) (w : World) (m : Model) (stream : Stream E)
  (v : V) (e : E) (u : U) :
  let options :=
    Some {| SendMessageOptions.images := images;
            SendMessageOptions.onResponseChunk := Some onResponseChunk |} in
  let request :=
    Str inputText
    :: map (fun image =>
              Prt {| Part.text := None; Part.inlineData := Some image |})
         (or_empty images) in
  model w = Some m ->
  failure stream = Some e ->
  accepts onResponseChunk (received stream) (caller w) = Some u ->
  (model_generateContentStream sdk m request (sdk_state w) = (inr stream, v) ->
   rejects_after (GenerateContentStream m request) e (received stream) u w
     (sendMessage sdk inputText options w))
  /\ (forall c : Chat,
         chat w = Some c ->
         chat_sendMessageStream sdk c request (sdk_state w) = (inr stream, v) ->
         rejects_after (ChatSendMessageStream c request) e (received stream) u
           w (sendChatMessage sdk inputText options w)).
Proof.
  intros options request Hm Hf Ha.
  assert (Hreq : request = request_of inputText (imageParts_of (or_empty images))).
  { unfold request, request_of. now rewrite imageParts_of_map, map_map. }
  assert (Hrun : forall ev,
             rejects_after ev e (received stream) u w
               (consume options stream "" (after_call ev v w))).
  { intro ev.
    destruct (consume_broken images onResponseChunk stream ""
                (after_call ev v w) Hf Ha) as (Hr & Ht & Hu).
    unfold rejects_after, options. rewrite Hr, Ht, Hu. simpl.
    now rewrite <- app_assoc. }
  rewrite Hreq. unfold options. split.
  - intro Hs. rewrite (sendMessage_streams _ _ _ _ Hm Hs). apply Hrun.
  - intros c Hc Hs. rewrite (sendChatMessage_streams _ _ _ _ Hm Hc Hs).
    apply Hrun.
Qed.

(** X7. When the callback throws on a chunk, having taken the chunks before
    it, a streaming [sendMessage] or [sendChatMessage] rejects with the
    callback's exception: the callback has been invoked on the chunks up to
    and including that one, once each and in order, and on no later chunk. *)
Theorem throwing_callback_ends_the_call
  (inputText : string) (images : option (list GenerativeContentBlob.t))
  (onResponseChunk : Callback) (w : World) (m : Model) (stream : Stream E)
  (v : V) (before : list string) (chunkText : string) (later : list string)
  (e : E) (u1 u2 : U) :
  let options :=
    Some {| SendMessageOptions.images := images;
            SendMessageOptions.onResponseChunk := Some onResponseChunk |} in
  let request :=
    Str inputText
    :: map (fun image =>
              Prt {| Part.text := None; Part.inlineData := Some image |})
         (or_empty images) in
  model w = Some m ->
  received stream = (before ++ chunkText :: later)%list ->
  accepts onResponseChunk before (caller w) = Some u1 ->
  onResponseChunk chunkText u1 = (inl e, u2) ->
  (model_generateContentStream sdk m request (sdk_state w) = (inr stream, v) ->
   rejects_after (GenerateContentStream m request) e (before ++ [chunkText])
     u2 w (sendMessage sdk inputText options w))
  /\ (forall c : Chat,
         chat w = Some c ->
         chat_sendMessageStream sdk c request (sdk_state w) = (inr stream, v) ->
         rejects_after (ChatSendMessageStream c request) e
           (before ++ [chunkText]) u2 w
           (sendChatMessage sdk inputText options w)).
Proof.
  intros options request Hm Hr Ha Hcb.
  assert (Hreq : request = request_of inputText (imageParts_of (or_empty images))).
  { unfold request, request_of. now rewrite imageParts_of_map, map_map. }
  assert (Hrun : forall ev,
             rejects_after ev e (before ++ [chunkText]) u2 w
               (consume options stream "" (after_call ev v w))).
  { intro ev.
    destruct (consume_refused images onResponseChunk before chunkText later
                stream "" (after_call ev v w) Hr Ha Hcb) as (Hres & Ht & Hu).
    unfold rejects_after, options. rewrite Hres, Ht, Hu. simpl.
    now rewrite <- app_assoc. }
  rewrite Hreq. unfold options. split.
  - intro Hs. rewrite (sendMessage_streams _ _ _ _ Hm Hs). apply Hrun.
  - intros c Hc Hs. rewrite (sendChatMessage_streams _ _ _ _ Hm Hc Hs).
    apply Hrun.
Qed.

(** *** Token counts *)

(** X8. With a model handle, [countTokens] settles as the SDK's
    [countTokens] does on the request: it resolves to the total the SDK
    reports and rejects with the exception the SDK throws, after that one
    call.  With a conversation handle too, once the transcript has been read,
    [countChatTokens] settles in the same way as the SDK's count of the
    contents it submitted, asked for in the state the transcript read left. *)
Theorem token_counts_come_from_the_sdk
  (inputText : string) (options : option CountTokensOptions.t)
  (chatOptions : option CountChatTokensOptions.t) (w : World) (m : Model) :
  let request :=
    Items
      (Str inputText
       :: map (fun image =>
                 Prt {| Part.text := None; Part.inlineData := Some image |})
            match options with
            | Some o => or_empty (CountTokensOptions.images o)
            | None => []
            end) in
  model w = Some m ->
  (forall (result : E + number) (v : V),
      model_countTokens sdk m request (sdk_state w) = (result, v) ->
      countTokens sdk inputText options w
      = (settle result, after_call (CountTokens m request) v w))
  /\ (forall (c : Chat) (history contents : list Content.t) (v v' : V)
         (result : E + number),
         chat w = Some c ->
         chat_getHistory sdk c (sdk_state w) = (inr history, v) ->
         trace (snd (countChatTokens sdk chatOptions w))
         = (trace w
              ++ [ ChatGetHistory c; CountTokens m (Contents contents) ])%list ->
         model_countTokens sdk m (Contents contents) v = (result, v') ->
         fst (countChatTokens sdk chatOptions w) = settle result
         /\ sdk_state (snd (countChatTokens sdk chatOptions w)) = v').
Proof.
  intros request Hm. split.
  - intros result v Hcall. unfold countTokens.
    rewrite bind_require_model, Hm. cbv zeta.
    assert (Hreq : request
                   = Items
                       (request_of inputText
                          match options with
                          | Some o =>
                              imageParts_of
                                (or_empty (CountTokensOptions.images o))
                          | None => []
                          end)).
    { unfold request, request_of. destruct options as [o|]; [|reflexivity].
      now rewrite imageParts_of_map, map_map. }
    rewrite <- Hreq. unfold await. rewrite Hcall. now destruct result.
  - intros c history contents v v' result Hc Hh Ht Hcall.
    revert Ht. unfold countChatTokens.
    rewrite bind_require_model, Hm, bind_require_chat, Hc.
    unfold bind at 1 2 3, await at 1 3 5. rewrite Hh. cbv zeta.
    match goal with
    | |- context [CountTokens m (Contents ?x)] => set (submitted := x)
    end.
    rewrite await_trace. simpl trace. rewrite <- app_assoc. simpl.
    intro Ht. apply app_inv_head in Ht.
    injection Ht as Ht. unfold await. simpl sdk_state.
    rewrite <- Ht in Hcall. rewrite Hcall. now destruct result.
Qed.

(** X9. With both handles, when the conversation's transcript cannot be
    read, [countChatTokens] and [getChatHistory] reject with the exception
    the SDK threw, having made that one call: no count is asked for. *)
Theorem unreadable_transcript_rejects
  (chatOptions : option CountChatTokensOptions.t) (w : World) (m : Model)
  (c : Chat) (e : E) (v : V) :
  model w = Some m ->
  chat w = Some c ->
  chat_getHistory sdk c (sdk_state w) = (inl e, v) ->
  countChatTokens sdk chatOptions w
  = (Rejected (Foreign e), after_call (ChatGetHistory c) v w)
  /\ getChatHistory sdk w
     = (Rejected (Foreign e), after_call (ChatGetHistory c) v w).
Proof.
  intros Hm Hc Hh. unfold countChatTokens, getChatHistory.
  rewrite !bind_require_model, Hm, !bind_require_chat, Hc.
  unfold bind, await. now rewrite Hh.
Qed.

(** *** The handles over time *)

(** X10. Only [initModel] and [initChat] write the handles: every other
    call, whatever its arguments and however it ends, leaves the client, the
    model and the conversation handle as they were. *)
Theorem only_init_calls_write_handles (call : Call U E number) (w : World) :
  (forall params, call <> InitModel params) ->
  (forall chatHistory, call <> InitChat chatHistory) ->
  handles (snd (perform sdk call w)) = handles w.
Proof.
  intros Hmodel Hchat.
  assert (Hkeep : forall (A : Type) (c : M V U E Client Model Chat number A),
             keeps_handles c -> handles (snd (c w)) = handles w)
    by (intros A c Hc; apply Hc).
  destruct call; unfold perform; rewrite bind_ret_world.
  - now elim (Hmodel params).
  - apply Hkeep. unfold sendMessage. framed.
  - apply Hkeep. unfold countTokens. framed.
  - now elim (Hchat chatHistory).
  - apply Hkeep. unfold sendChatMessage. framed.
  - apply Hkeep. unfold countChatTokens. framed.
  - apply Hkeep. unfold getChatHistory. framed.
Qed.

Lemma perform_keeps_chat (call : Call U E number) (w : World) :
  chat w <> None -> chat (snd (perform sdk call w)) <> None.
Proof.
  intro Hc.
  assert (Hkeep : forall (A : Type) (c : M V U E Client Model Chat number A),
             keeps_handles c -> chat (snd (c w)) <> None).
  { intros A c Hk. specialize (Hk w). unfold handles in Hk.
    injection Hk as _ _ Hch. now rewrite Hch. }
  destruct call; unfold perform; rewrite bind_ret_world.
  - destruct (initModel_handles params w) as (Hch & _). now rewrite Hch.
  - apply Hkeep. unfold sendMessage. framed.
  - apply Hkeep. unfold countTokens. framed.
  - unfold initChat. cbv zeta. rewrite bind_require_model.
    destruct (model w) as [m|]; [|exact Hc].
    unfold bind, await.
    match goal with
    | |- context [model_startChat sdk m ?p (sdk_state w)] =>
        destruct (model_startChat sdk m p (sdk_state w)) as [[e|c] v]
    end; simpl; [exact Hc | discriminate].
  - apply Hkeep. unfold sendChatMessage. framed.
  - apply Hkeep. unfold countChatTokens. framed.
  - apply Hkeep. unfold getChatHistory. framed.
Qed.

(** X11. No sequence of calls clears a handle: a model handle, once there,
    is there after any further calls, and so is a conversation handle.
    Hence after the first successful [initModel] no call ever rejects with
    "Model not initialized" again, and once a conversation handle is there no
    call ever rejects with "Chat not initialized" again. *)
Theorem guard_errors_do_not_come_back
  (calls : list (Call U E number)) (call : Call U E number) (w : World) :
  (model w <> None ->
   model (run sdk calls w) <> None
   /\ fst (perform sdk call (run sdk calls w)) <> Rejected NotInitializedError)
  /\ (chat w <> None ->
      chat (run sdk calls w) <> None
      /\ fst (perform sdk call (run sdk calls w))
         <> Rejected ChatNotInitializedError).
Proof.
  split.
  - intro Hm.
    assert (Hrun : model (run sdk calls w) <> None).
    { revert w Hm. induction calls as [|first calls IH]; intros w Hm;
        [exact Hm|].
      simpl. apply IH. now apply perform_handles. }
    split; [exact Hrun|]. intro Herr.
    destruct (perform_error _ _ Herr) as [(_ & Hnone)|(Hmsg & _)];
      [contradiction | discriminate].
  - intro Hc.
    assert (Hrun : chat (run sdk calls w) <> None).
    { revert w Hc. induction calls as [|first calls IH]; intros w Hc;
        [exact Hc|].
      simpl. apply IH. now apply perform_keeps_chat. }
    split; [exact Hrun|]. intro Herr.
    destruct (perform_error _ _ Herr) as [(Hmsg & _)|(_ & Hnone & _)];
      [discriminate | contradiction].
Qed.

Lemma initModel_resolved (params : ModelParams.t number) (w : World) :
  fst (initModel sdk params w) = Resolved tt ->
  model (snd (initModel sdk params w)) <> None.
Proof.
  unfold initModel, bind, await, set_generativeAI, set_model. cbv zeta.
  destruct (new_GoogleGenerativeAI sdk _ (sdk_state w)) as [[e|ai] v]; simpl;
    [discriminate|].
  match goal with
  | |- context [ai_getGenerativeModel sdk ai ?p v] =>
      destruct (ai_getGenerativeModel sdk ai p v) as [[e|m] v']
  end; simpl; discriminate.
Qed.

(** X12. Replacing the model does not end the conversation: after an
    [initModel] that resolves in a state with a conversation handle, that
    same conversation handle is still there next to the new model handle, and
    no method rejects with an error of this module. *)
Theorem conversation_survives_model_replacement
  (params : ModelParams.t number) (w : World) (c : Chat) :
  chat w = Some c ->
  fst (initModel sdk params w) = Resolved tt ->
  let w' := snd (initModel sdk params w) in
  chat w' = Some c
  /\ model w' <> None
  /\ (forall (call : Call U E number) (message : string),
         fst (perform sdk call w') <> Rejected (Error message)).
Proof.
  intros Hc Hres w'.
  assert (Hchat : chat w' = Some c).
  { unfold w'. destruct (initModel_handles params w) as (Hch & _).
    now rewrite Hch. }
  assert (Hmodel : model w' <> None) by now apply initModel_resolved.
  split; [exact Hchat | split; [exact Hmodel|]].
  intros call message Herr.
  destruct (perform_error _ _ Herr) as [(_ & Hnone)|(_ & Hnone & _)];
    congruence.
Qed.

(** *** From seed to transcript *)

Lemma history_item_seed_turn (item : ChatHistoryItem.t) :
  history_item (seed_turn item)
  = {| ModelChatHistoryItem.isUser := ChatHistoryItem.isUser item;
       ModelChatHistoryItem.parts :=
         match ChatHistoryItem.text item with
         | Some t =>
             if t =? "" then []
             else [ {| ModelChatHistoryPart.type := "text";
                       ModelChatHistoryPart.content := t |} ]
         | None => []
         end
         ++ map (fun image =>
                   {| ModelChatHistoryPart.type :=
                        if GenerativeContentBlob.mimeType image =? ""
                        then "image"
                        else GenerativeContentBlob.mimeType image;
                      ModelChatHistoryPart.content :=
                        GenerativeContentBlob.data image |})
              (or_empty (ChatHistoryItem.images item)) |}.
Proof.
  rewrite seed_turn_parts. unfold history_item. simpl. f_equal.
  - now destruct (ChatHistoryItem.isUser item).
  - rewrite for_of_push. simpl. rewrite map_app, map_map. f_equal.
    + destruct (ChatHistoryItem.text item) as [t|]; [|reflexivity].
      destruct (t =? "") eqn:Ht; [reflexivity|]. simpl.
      rewrite history_part_cases. simpl. now rewrite Ht.
    + apply map_ext. intro image. now rewrite history_part_cases.
Qed.

(** X13. Over an SDK whose conversation answers [getHistory] with the seed
    it was started with, [getChatHistory] right after [initChat] gives the
    input list back item by item, in order: [isUser] as given; the text, when
    present and not empty, as one part of type text; each image as one part
    whose type is its mime type, or image when that is empty, and whose
    content is its data. *)
Theorem seeded_history_reads_back (items : list ChatHistoryItem.t)
  (w : World) (m : Model) (c : Chat) (v1 v2 : V) :
  let read_back (item : ChatHistoryItem.t) : ModelChatHistoryItem.t :=
    {| ModelChatHistoryItem.isUser := ChatHistoryItem.isUser item;
       ModelChatHistoryItem.parts :=
         match ChatHistoryItem.text item with
         | Some t =>
             if t =? "" then []
             else [ {| ModelChatHistoryPart.type := "text";
                       ModelChatHistoryPart.content := t |} ]
         | None => []
         end
         ++ map (fun image =>
                   {| ModelChatHistoryPart.type :=
                        if GenerativeContentBlob.mimeType image =? ""
                        then "image"
                        else GenerativeContentBlob.mimeType image;
                      ModelChatHistoryPart.content :=
                        GenerativeContentBlob.data image |})
              (or_empty (ChatHistoryItem.images item)) |} in
  model w = Some m ->
  model_startChat sdk m
    {| StartChatParams.history := map seed_turn items |} (sdk_state w)
  = (inr c, v1) ->
  chat_getHistory sdk c v1 = (inr (map seed_turn items), v2) ->
  fst (getChatHistory sdk (snd (initChat sdk (Some items) w)))
  = Resolved (map read_back items).
Proof.
  intros read_back Hm Hstart Hget.
  rewrite (initChat_with_model (Some items) w Hm). simpl or_empty.
  unfold bind at 1, await at 1. rewrite Hstart. simpl snd.
  unfold getChatHistory. rewrite bind_require_model. simpl model. rewrite Hm.
  rewrite bind_require_chat. simpl chat.
  unfold bind, await. simpl sdk_state. rewrite Hget. simpl.
  f_equal. rewrite for_of_push. simpl. rewrite map_map.
  apply map_ext. intro item. apply history_item_seed_turn.
Qed.

(** *** Empty inputs and early calls *)

Lemma consume_ignores_images
  (images images' : option (list GenerativeContentBlob.t))
  (onResponseChunk : option Callback) (stream : Stream E)
  (responseText : string) (w : World) :
  consume
    (Some {| SendMessageOptions.images := images;
             SendMessageOptions.onResponseChunk := onResponseChunk |})
    stream responseText w
  = consume
      (Some {| SendMessageOptions.images := images';
               SendMessageOptions.onResponseChunk := onResponseChunk |})
      stream responseText w.
Proof.
  revert responseText w.
  induction stream as [|chunk rest IH|e]; intros acc w; simpl;
    try reflexivity.
  unfold bind. destruct (text chunk w) as [[chunkText|x] w1]; [|reflexivity].
  simpl.
  match goal with
  | |- match ?c with _ => _ end = match ?c with _ => _ end =>
      destruct c as [[y|x] w2]; [apply IH | reflexivity]
  end.
Qed.

(** X14. Leaving something out and giving it empty come to the same call:
    no options, options without images and options with an empty image list
    are indistinguishable to [sendMessage], [sendChatMessage] and
    [countTokens]; [countChatTokens] treats an empty [inputText] and an empty
    image list as it treats no options at all; and [initChat] without a
    history behaves as on the empty history. *)
Theorem absent_and_empty_inputs_agree
  (inputText : string) (onResponseChunk : option Callback) (w : World) :
  let sendOptions images : option (SendMessageOptions.t U E) :=
    Some {| SendMessageOptions.images := images;
            SendMessageOptions.onResponseChunk := onResponseChunk |} in
  sendMessage sdk inputText (sendOptions None) w
  = sendMessage sdk inputText (sendOptions (Some [])) w
  /\ sendChatMessage sdk inputText (sendOptions None) w
     = sendChatMessage sdk inputText (sendOptions (Some [])) w
  /\ (onResponseChunk = None ->
      sendMessage sdk inputText None w
      = sendMessage sdk inputText (sendOptions None) w
      /\ sendChatMessage sdk inputText None w
         = sendChatMessage sdk inputText (sendOptions None) w)
  /\ countTokens sdk inputText None w
     = countTokens sdk inputText
         (Some {| CountTokensOptions.images := None |}) w
  /\ countTokens sdk inputText None w
     = countTokens sdk inputText
         (Some {| CountTokensOptions.images := Some [] |}) w
  /\ countChatTokens sdk None w
     = countChatTokens sdk
         (Some {| CountChatTokensOptions.inputText := Some "";
                  CountChatTokensOptions.images := Some [] |}) w
  /\ initChat sdk None w = initChat sdk (Some []) w.
Proof.
  intro sendOptions.
  assert (Hsend : sendMessage sdk inputText (sendOptions None) w
                  = sendMessage sdk inputText (sendOptions (Some [])) w
                  /\ sendChatMessage sdk inputText (sendOptions None) w
                     = sendChatMessage sdk inputText (sendOptions (Some [])) w).
  { unfold sendOptions, sendMessage, sendChatMessage.
    rewrite !bind_require_model. destruct (model w) as [m|]; [|now split].
    rewrite !bind_require_chat. cbv zeta.
    destruct onResponseChunk as [cb|]; simpl.
    - split; [|destruct (chat w) as [c|]; [|reflexivity]];
        unfold bind;
        match goal with
        | |- match ?c with _ => _ end = match ?c with _ => _ end =>
            destruct c as [[stream|x] w1];
            [apply consume_ignores_images | reflexivity]
        end.
    - now split. }
  destruct Hsend as (Hone & Hchat).
  split; [exact Hone | split; [exact Hchat | split]].
  - intros ->. split; reflexivity.
  - repeat split.
Qed.

Lemma perform_without_model (call : Call U E number) (w : World) :
  model w = None ->
  (forall params, call <> InitModel params) ->
  perform sdk call w = (Rejected NotInitializedError, w).
Proof.
  intros Hm Hcall.
  destruct call; [now elim (Hcall params) | ..];
    unfold perform, sendMessage, countTokens, initChat, sendChatMessage,
      countChatTokens, getChatHistory;
    now rewrite bind_assoc, bind_require_model, Hm.
Qed.

(** X15. Before [initModel] nothing reaches the SDK: from a state without
    model handle, any sequence of calls that contains no [initModel] leaves
    the whole state as it was, handles, SDK state, caller's state and trace
    alike, so that no SDK call is made and no callback is invoked. *)
Theorem nothing_happens_before_initModel
  (calls : list (Call U E number)) (w : World) :
  model w = None ->
  Forall (fun call => forall params, call <> InitModel params) calls ->
  run sdk calls w = w.
Proof.
  intros Hm Hcalls. unfold run.
  induction Hcalls as [|call calls Hcall _ IH]; [reflexivity|].
  simpl. rewrite (@perform_without_model call w Hm Hcall). exact IH.
Qed.

End Theory.

(** * The theorems at work on the small SDK *)

Lemma lifecycle_guards_witness :
  sendMessage Echo.sdk "hi" None Echo.fresh
  = (Rejected NotInitializedError, Echo.fresh)
  /\ getChatHistory Echo.sdk Echo.model_ready
     = (Rejected ChatNotInitializedError, Echo.model_ready).
Proof.
  destruct (lifecycle_guards (U:=list string) Echo.sdk) as (Hmodel & Hchat & _).
  split.
  - apply (Hmodel Echo.fresh "hi" None None None None). reflexivity.
  - apply (Hchat Echo.model_ready "gemini-pro" "hi" None None); reflexivity.
Defined.

Lemma streaming_delivers_chunks_in_order_witness :
  streams_in_order
    (GenerateContentStream "gemini-pro"
       [ Str "hi";
         Prt {| Part.text := None; Part.inlineData := Some Echo.imageA |} ])
    Echo.collect (Next (inr "Hello") (Next (inr " world") Done))
    Echo.model_ready
    (sendMessage Echo.sdk "hi"
       (Some {| SendMessageOptions.images := Some [Echo.imageA];
                SendMessageOptions.onResponseChunk := Some Echo.collect |})
       Echo.model_ready)
  /\ delivers_all_read
       (GenerateContentStream "gemini-pro"
          [ Str "hi";
            Prt {| Part.text := None; Part.inlineData := Some Echo.imageA |} ])
       Echo.collect (Next (inr "Hel") (Abort "network"))
       Echo.model_ready
       (sendMessage Flaky.sdk "hi"
          (Some {| SendMessageOptions.images := Some [Echo.imageA];
                   SendMessageOptions.onResponseChunk := Some Echo.collect |})
          Echo.model_ready).
Proof.
  split.
  - destruct (streaming_delivers_chunks_in_order Echo.sdk "hi"
                (Some [Echo.imageA]) Echo.collect Echo.model_ready
                (m:="gemini-pro")
                (Next (inr "Hello") (Next (inr " world") Done))
                (sdk_state Echo.model_ready) eq_refl) as (Hsend & _).
    apply (proj1 (Hsend eq_refl)).
  - destruct (streaming_delivers_chunks_in_order Flaky.sdk "hi"
                (Some [Echo.imageA]) Echo.collect Echo.model_ready
                (m:="gemini-pro")
                (Next (inr "Hel") (Abort "network"))
                (sdk_state Echo.model_ready) eq_refl) as (Hsend & _).
    apply (proj2 (Hsend eq_refl)).
Defined.

Lemma streaming_agrees_with_single_shot_witness :
  fst (sendMessage Echo.sdk "hi"
         (Some {| SendMessageOptions.images := Some [Echo.imageA];
                  SendMessageOptions.onResponseChunk := None |})
         Echo.model_ready)
  = Resolved "Hello world"
  /\ fst (sendMessage Echo.sdk "hi"
            (Some {| SendMessageOptions.images := Some [Echo.imageA];
                     SendMessageOptions.onResponseChunk := Some Echo.collect |})
            Echo.model_ready)
     = Resolved "Hello world".
Proof.
  destruct (streaming_agrees_with_single_shot Echo.sdk "hi"
              (Some [Echo.imageA]) Echo.model_ready (m:="gemini-pro")
              (t:="Hello world")
              (stream:=Next (inr "Hello") (Next (inr " world") Done))
              (v1:=[]) (v2:=[])
              eq_refl eq_refl eq_refl eq_refl) as (Hsingle & _ & Hstream).
  split; [exact Hsingle|].
  apply (Hstream Echo.collect); [reflexivity | discriminate].
Defined.

Lemma enum_mappings_total_witness :
  mapHarmCategory "OTHER" = HARM_CATEGORY_UNSPECIFIED
  /\ mapSafetySettingLevel None = HARM_BLOCK_THRESHOLD_UNSPECIFIED.
Proof.
  destruct enum_mappings_total as (_ & _ & Hcategory & Hlevel).
  split.
  - apply (Hcategory "OTHER"); discriminate.
  - apply (Hlevel None); discriminate.
Defined.

Lemma countChatTokens_appends_one_turn_iff_parts_witness :
  countChatTokens Echo.sdk
    (Some {| CountChatTokensOptions.inputText := None;
             CountChatTokensOptions.images := None |})
    Echo.chat_ready
  = (Resolved 1,
     after_call
       (CountTokens "gemini-pro"
          (Contents
             [ {| Content.role := "user";
                  Content.parts :=
                    [ {| Part.text := Some "hi";
                         Part.inlineData := None |} ] |} ]))
       (sdk_state Echo.chat_ready)
       (after_call (ChatGetHistory 0) (sdk_state Echo.chat_ready)
          Echo.chat_ready))
  /\ countChatTokens Echo.sdk
       (Some {| CountChatTokensOptions.inputText := Some "more";
                CountChatTokensOptions.images := Some [Echo.imageA] |})
       Echo.chat_ready
     = (Resolved 3,
        after_call
          (CountTokens "gemini-pro"
             (Contents
                [ {| Content.role := "user";
                     Content.parts :=
                       [ {| Part.text := Some "hi";
                            Part.inlineData := None |} ] |};
                  {| Content.role := "user";
                     Content.parts :=
                       [ {| Part.text := Some "more";
                            Part.inlineData := None |};
                         {| Part.text := None;
                            Part.inlineData := Some Echo.imageA |} ] |} ]))
          (sdk_state Echo.chat_ready)
          (after_call (ChatGetHistory 0) (sdk_state Echo.chat_ready)
             Echo.chat_ready)).
Proof.
  split.
  - destruct (countChatTokens_appends_one_turn_iff_parts Echo.sdk
                (Some {| CountChatTokensOptions.inputText := None;
                         CountChatTokensOptions.images := None |})
                Echo.chat_ready (m:="gemini-pro") (c:=0)
                (history:=sdk_state Echo.chat_ready)
                (v:=sdk_state Echo.chat_ready)
                eq_refl eq_refl eq_refl) as (Hcount & _).
    apply (Hcount (inr 1) (sdk_state Echo.chat_ready)). reflexivity.
  - destruct (countChatTokens_appends_one_turn_iff_parts Echo.sdk
                (Some {| CountChatTokensOptions.inputText := Some "more";
                         CountChatTokensOptions.images := Some [Echo.imageA] |})
                Echo.chat_ready (m:="gemini-pro") (c:=0)
                (history:=sdk_state Echo.chat_ready)
                (v:=sdk_state Echo.chat_ready)
                eq_refl eq_refl eq_refl) as (Hcount & _).
    apply (Hcount (inr 3) (sdk_state Echo.chat_ready)). reflexivity.
Defined.

Lemma request_is_text_then_images_witness :
  countTokens Echo.sdk "describe"
    (Some {| CountTokensOptions.images :=
               Some [Echo.imageA; Echo.imageB; Echo.imageC] |})
    Echo.model_ready
  = (Resolved 4,
     after_call
       (CountTokens "gemini-pro"
          (Items
             [ Str "describe";
               Prt {| Part.text := None; Part.inlineData := Some Echo.imageA |};
               Prt {| Part.text := None; Part.inlineData := Some Echo.imageB |};
               Prt {| Part.text := None; Part.inlineData := Some Echo.imageC |}
             ]))
       [] Echo.model_ready)
  /\ sendMessage Echo.sdk "describe"
       (Some {| SendMessageOptions.images :=
                  Some [Echo.imageA; Echo.imageB; Echo.imageC];
                SendMessageOptions.onResponseChunk := None |})
       Echo.model_ready
     = (Resolved "Hello world",
        after_call
          (GenerateContent "gemini-pro"
             [ Str "describe";
               Prt {| Part.text := None; Part.inlineData := Some Echo.imageA |};
               Prt {| Part.text := None; Part.inlineData := Some Echo.imageB |};
               Prt {| Part.text := None; Part.inlineData := Some Echo.imageC |}
             ])
          [] Echo.model_ready).
Proof.
  destruct (request_is_text_then_images Echo.sdk (U:=list string) "describe"
              Echo.model_ready (m:="gemini-pro") eq_refl) as (Hsend & Hcount).
  split.
  - destruct (Hcount (Some {| CountTokensOptions.images :=
                                Some [Echo.imageA; Echo.imageB; Echo.imageC] |}))
      as (_ & Hcall).
    apply (Hcall (inr 4) []). reflexivity.
  - destruct (Hsend (Some {| SendMessageOptions.images :=
                               Some [Echo.imageA; Echo.imageB; Echo.imageC];
                             SendMessageOptions.onResponseChunk := None |}))
      as (_ & Hsingle & _).
    apply (Hsingle eq_refl (inr (inr "Hello world")) []). reflexivity.
Defined.

Lemma initChat_seeds_turns_in_order_witness :
  initChat Echo.sdk
    (Some [ {| ChatHistoryItem.isUser := true;
               ChatHistoryItem.text := Some "hi";
               ChatHistoryItem.images := Some [Echo.imageA] |};
            {| ChatHistoryItem.isUser := false;
               ChatHistoryItem.text := Some "hello";
               ChatHistoryItem.images := None |} ])
    Echo.model_ready
  = (Resolved tt,
     {| generativeAI := Some "key"; model := Some "gemini-pro";
        chat := Some 0;
        sdk_state :=
          [ {| Content.role := "user";
               Content.parts :=
                 [ {| Part.text := Some "hi"; Part.inlineData := None |};
                   {| Part.text := None;
                      Part.inlineData := Some Echo.imageA |} ] |};
            {| Content.role := "model";
               Content.parts :=
                 [ {| Part.text := Some "hello";
                      Part.inlineData := None |} ] |} ];
        caller := [];
        trace :=
          trace Echo.model_ready
          ++ [ StartChat "gemini-pro"
                 {| StartChatParams.history :=
                      [ {| Content.role := "user";
                           Content.parts :=
                             [ {| Part.text := Some "hi";
                                  Part.inlineData := None |};
                               {| Part.text := None;
                                  Part.inlineData := Some Echo.imageA |} ] |};
                        {| Content.role := "model";
                           Content.parts :=
                             [ {| Part.text := Some "hello";
                                  Part.inlineData := None |} ] |} ] |} ] |}).
Proof.
  destruct (initChat_seeds_turns_in_order Echo.sdk
              (Some [ {| ChatHistoryItem.isUser := true;
                         ChatHistoryItem.text := Some "hi";
                         ChatHistoryItem.images := Some [Echo.imageA] |};
                      {| ChatHistoryItem.isUser := false;
                         ChatHistoryItem.text := Some "hello";
                         ChatHistoryItem.images := None |} ])
              Echo.model_ready (m:="gemini-pro") eq_refl) as (Hstart & _).
  apply (Hstart (inr 0)). reflexivity.
Defined.

Lemma getChatHistory_maps_transcript_in_order_witness :
  fst (getChatHistory Echo.sdk Echo.untyped_ready)
  = Resolved
      [ {| ModelChatHistoryItem.isUser := true;
           ModelChatHistoryItem.parts :=
             [ {| ModelChatHistoryPart.type := "image";
                  ModelChatHistoryPart.content := "QUJD" |} ] |} ].
Proof.
  apply (getChatHistory_maps_transcript_in_order Echo.sdk Echo.untyped_ready
           (m:="gemini-pro") (c:=0)
           (history:=sdk_state Echo.untyped_ready)
           (v:=sdk_state Echo.untyped_ready) eq_refl eq_refl eq_refl).
Defined.

Lemma chat_handle_needs_model_handle_witness :
  handles_ok
    (run Echo.sdk
       [ InitChat None; InitModel Echo.params; InitChat None; GetChatHistory ]
       Echo.fresh) = true
  /\ model (snd (perform Echo.sdk (InitModel Echo.params) Echo.model_ready))
     <> None.
Proof.
  destruct (chat_handle_needs_model_handle (U:=list string) Echo.sdk)
    as (Hrun & Hkeep & _).
  split.
  - apply (Hrun _ [] []).
  - apply Hkeep. discriminate.
Defined.

(** * Where the specification's wording and the code part *)

(** C8 as worded fails on an item whose text is the empty string: the
    wording puts a text part in the seed turn, [initChat] puts none, as the
    history the small SDK received and kept as its transcript shows. *)
Lemma initChat_empty_text_counterexample :
  trace (snd (initChat Echo.sdk (Some [Echo.empty_text_item]) Echo.model_ready))
  = (trace Echo.model_ready
       ++ [ StartChat "gemini-pro"
              {| StartChatParams.history :=
                   [ {| Content.role := "user"; Content.parts := [] |} ] |} ])%list
  /\ sdk_state
       (snd (initChat Echo.sdk (Some [Echo.empty_text_item]) Echo.model_ready))
     = [ {| Content.role := "user"; Content.parts := [] |} ]
  /\ map spec_seed_turn [Echo.empty_text_item]
     = [ {| Content.role := "user";
            Content.parts :=
              [ {| Part.text := Some ""; Part.inlineData := None |} ] |} ]
  /\ sdk_state
       (snd (initChat Echo.sdk (Some [Echo.empty_text_item]) Echo.model_ready))
     <> map spec_seed_turn [Echo.empty_text_item]
  /\ trace (snd (initChat Echo.sdk (Some [Echo.empty_text_item])
                   Echo.model_ready))
     <> (trace Echo.model_ready
           ++ [ StartChat "gemini-pro"
                  {| StartChatParams.history :=
                       map spec_seed_turn [Echo.empty_text_item] |} ])%list.
Proof.
  split; [reflexivity | split; [reflexivity | split; [reflexivity | split]]].
  - vm_compute. intro H. discriminate H.
  - vm_compute. intro H. discriminate H.
Qed.

(** C9 as worded fails on an inline-data part whose mime type is the empty
    string: the wording gives the empty string as its type,
    [getChatHistory] gives image. *)
Lemma getChatHistory_empty_mime_counterexample :
  sdk_state Echo.untyped_ready
  = [ {| Content.role := "user";
         Content.parts :=
           [ {| Part.text := None;
                Part.inlineData := Some Echo.untyped_image |} ] |} ]
  /\ fst (getChatHistory Echo.sdk Echo.untyped_ready)
     = Resolved
         [ {| ModelChatHistoryItem.isUser := true;
              ModelChatHistoryItem.parts :=
                [ {| ModelChatHistoryPart.type := "image";
                     ModelChatHistoryPart.content := "QUJD" |} ] |} ]
  /\ map spec_history_item (sdk_state Echo.untyped_ready)
     = [ {| ModelChatHistoryItem.isUser := true;
            ModelChatHistoryItem.parts :=
              [ {| ModelChatHistoryPart.type := "";
                   ModelChatHistoryPart.content := "QUJD" |} ] |} ]
  /\ fst (getChatHistory Echo.sdk Echo.untyped_ready)
     <> Resolved (map spec_history_item (sdk_state Echo.untyped_ready)).
Proof.
  split; [reflexivity | split; [reflexivity | split; [reflexivity|]]].
  vm_compute. intro H. discriminate H.
Qed.

(** * The further theorems at work on the two SDKs *)

Lemma enum_mappings_preimages_witness :
  Some "LOW_AND_ABOVE" = Some SafetySettingLevel.MEDIUM_AND_ABOVE
  \/ Some "LOW_AND_ABOVE" = Some SafetySettingLevel.LOW_AND_ABOVE.
Proof.
  destruct (enum_mappings_preimages "OTHER" (Some "LOW_AND_ABOVE"))
    as (_ & _ & _ & _ & _ & _ & Hmedium).
  apply Hmedium. reflexivity.
Defined.

Lemma initModel_hands_over_translated_parameters_witness :
  initModel Echo.sdk Echo.params Echo.fresh
  = (Resolved tt,
     {| generativeAI := Some "key"; model := Some "gemini-pro"; chat := None;
        sdk_state := []; caller := [];
        trace :=
          [ NewGoogleGenerativeAI "key";
            GetGenerativeModel "key"
              {| GenerativeModelParams.model := "gemini-pro";
                 GenerativeModelParams.safetySettings :=
                   [ {| SafetySetting.category := HARM_CATEGORY_HARASSMENT;
                        SafetySetting.threshold := BLOCK_MEDIUM_AND_ABOVE |};
                     {| SafetySetting.category := HARM_CATEGORY_UNSPECIFIED;
                        SafetySetting.threshold :=
                          HARM_BLOCK_THRESHOLD_UNSPECIFIED |} ];
                 GenerativeModelParams.generationConfig :=
                   {| GenerationConfig.temperature := None;
                      GenerationConfig.topK := None;
                      GenerationConfig.topP := None;
                      GenerationConfig.maxOutputTokens := None;
                      GenerationConfig.stopSequences := None |} |} ] |}).
Proof.
  destruct (initModel_hands_over_translated_parameters Echo.sdk Echo.params
              Echo.fresh (ai:="key") (v:=[]) eq_refl) as (_ & Hget).
  apply (Hget (inr "gemini-pro") []). reflexivity.
Defined.

Lemma initModel_outcomes_witness :
  fst (initModel Flaky.sdk Flaky.nameless Echo.model_ready)
  = Rejected (Foreign "unknown model")
  /\ generativeAI (snd (initModel Flaky.sdk Flaky.nameless Echo.model_ready))
     = Some "key"
  /\ model (snd (initModel Flaky.sdk Flaky.nameless Echo.model_ready))
     = Some "gemini-pro".
Proof.
  destruct (initModel_outcomes Flaky.sdk Flaky.nameless Echo.model_ready)
    as (_ & _ & Hclient).
  destruct (Hclient "key" [] (inl "unknown model") [] eq_refl eq_refl)
    as (Hai & _ & Hres & Hmodel).
  split; [exact Hres | split; [exact Hai | exact Hmodel]].
Defined.

Lemma initChat_outcomes_witness :
  fst (initChat Flaky.sdk None Echo.chat_ready)
  = Rejected (Foreign "bad history")
  /\ chat (snd (initChat Flaky.sdk None Echo.chat_ready)) = Some 0.
Proof.
  destruct (initChat_outcomes Flaky.sdk None Echo.chat_ready
              (m:="gemini-pro") (result:=inl "bad history")
              (v:=sdk_state Echo.chat_ready) eq_refl eq_refl)
    as (_ & _ & _ & Hres & Hchat).
  split; [exact Hres | exact Hchat].
Defined.

Lemma single_shot_settles_as_the_sdk_witness :
  sendMessage Flaky.sdk "hi"
    (Some {| SendMessageOptions.images := None;
             SendMessageOptions.onResponseChunk := None |})
    Echo.model_ready
  = (Rejected (Foreign "blocked"),
     after_call (GenerateContent "gemini-pro" [Str "hi"]) [] Echo.model_ready).
Proof.
  destruct (single_shot_settles_as_the_sdk Flaky.sdk (U:=list string) "hi" None
              Echo.model_ready (m:="gemini-pro") eq_refl) as (Hsend & _).
  apply (Hsend (inr (inl "blocked")) []). reflexivity.
Defined.

Lemma broken_stream_rejects_after_delivery_witness :
  rejects_after (GenerateContentStream "gemini-pro" [Str "hi"]) "network"
    ["Hel"] ["Hel"] Echo.model_ready
    (sendMessage Flaky.sdk "hi"
       (Some {| SendMessageOptions.images := None;
                SendMessageOptions.onResponseChunk := Some Echo.collect |})
       Echo.model_ready).
Proof.
  destruct (broken_stream_rejects_after_delivery Flaky.sdk "hi" None
              Echo.collect Echo.model_ready (m:="gemini-pro")
              (Next (inr "Hel") (Abort "network")) []
              (e:="network") (u:=["Hel"]) eq_refl eq_refl eq_refl)
    as (Hsend & _).
  apply Hsend. reflexivity.
Defined.

Lemma throwing_callback_ends_the_call_witness :
  rejects_after (GenerateContentStream "gemini-pro" [Str "hi"]) "enough"
    ["Hello"; " world"] ["Hello"] Echo.model_ready
    (sendMessage Echo.sdk "hi"
       (Some {| SendMessageOptions.images := None;
                SendMessageOptions.onResponseChunk := Some Flaky.once |})
       Echo.model_ready).
Proof.
  destruct (throwing_callback_ends_the_call Echo.sdk "hi" None Flaky.once
              Echo.model_ready (m:="gemini-pro")
              (Next (inr "Hello") (Next (inr " world") Done)) []
              ["Hello"] " world" [] (e:="enough") (u1:=["Hello"])
              (u2:=["Hello"]) eq_refl eq_refl eq_refl eq_refl)
    as (Hsend & _).
  apply Hsend. reflexivity.
Defined.

Lemma token_counts_come_from_the_sdk_witness :
  countTokens Echo.sdk "describe"
    (Some {| CountTokensOptions.images := Some [Echo.imageA; Echo.imageB] |})
    Echo.model_ready
  = (Resolved 3,
     after_call
       (CountTokens "gemini-pro"
          (Items
             [ Str "describe";
               Prt {| Part.text := None; Part.inlineData := Some Echo.imageA |};
               Prt {| Part.text := None; Part.inlineData := Some Echo.imageB |}
             ]))
       [] Echo.model_ready).
Proof.
  destruct (token_counts_come_from_the_sdk Echo.sdk (U:=list string) "describe"
              (Some {| CountTokensOptions.images :=
                         Some [Echo.imageA; Echo.imageB] |})
              None Echo.model_ready (m:="gemini-pro") eq_refl) as (Hcount & _).
  apply (Hcount (inr 3) []). reflexivity.
Defined.

Lemma unreadable_transcript_rejects_witness :
  getChatHistory Flaky.sdk Echo.chat_ready
  = (Rejected (Foreign "gone"),
     after_call (ChatGetHistory 0) (sdk_state Echo.chat_ready) Echo.chat_ready).
Proof.
  apply (unreadable_transcript_rejects Flaky.sdk None Echo.chat_ready
           (m:="gemini-pro") (c:=0) (e:="gone")
           (v:=sdk_state Echo.chat_ready) eq_refl eq_refl eq_refl).
Defined.

Lemma only_init_calls_write_handles_witness :
  handles (snd (perform Echo.sdk (CountChatTokens None) Echo.chat_ready))
  = handles Echo.chat_ready.
Proof.
  apply (only_init_calls_write_handles Echo.sdk (call:=CountChatTokens None)
           Echo.chat_ready); discriminate.
Defined.

Lemma guard_errors_do_not_come_back_witness :
  fst (perform Echo.sdk GetChatHistory
         (run Echo.sdk [InitModel Flaky.nameless; SendMessage "hi" None]
            Echo.chat_ready))
  <> Rejected ChatNotInitializedError.
Proof.
  destruct (guard_errors_do_not_come_back Echo.sdk
              [InitModel Flaky.nameless; SendMessage "hi" None]
              GetChatHistory Echo.chat_ready) as (_ & Hchat).
  apply Hchat. discriminate.
Defined.

Lemma conversation_survives_model_replacement_witness :
  chat (snd (initModel Echo.sdk Flaky.nameless Echo.chat_ready)) = Some 0
  /\ model (snd (initModel Echo.sdk Flaky.nameless Echo.chat_ready)) <> None.
Proof.
  destruct (conversation_survives_model_replacement Echo.sdk Flaky.nameless
              Echo.chat_ready (c:=0) eq_refl eq_refl) as (Hchat & Hmodel & _).
  split; [exact Hchat | exact Hmodel].
Defined.

Lemma seeded_history_reads_back_witness :
  fst (getChatHistory Echo.sdk
         (snd (initChat Echo.sdk
                 (Some [ {| ChatHistoryItem.isUser := false;
                            ChatHistoryItem.text := Some "look";
                            ChatHistoryItem.images := Some [Echo.imageA] |};
                         Echo.empty_text_item ])
                 Echo.model_ready)))
  = Resolved
      [ {| ModelChatHistoryItem.isUser := false;
           ModelChatHistoryItem.parts :=
             [ {| ModelChatHistoryPart.type := "text";
                  ModelChatHistoryPart.content := "look" |};
               {| ModelChatHistoryPart.type := "image/png";
                  ModelChatHistoryPart.content := "QQ==" |} ] |};
        {| ModelChatHistoryItem.isUser := true;
           ModelChatHistoryItem.parts := [] |} ].
Proof.
  apply (seeded_history_reads_back Echo.sdk
           [ {| ChatHistoryItem.isUser := false;
                ChatHistoryItem.text := Some "look";
                ChatHistoryItem.images := Some [Echo.imageA] |};
             Echo.empty_text_item ]
           Echo.model_ready (m:="gemini-pro") (c:=0)
           (v1:=map seed_turn
                  [ {| ChatHistoryItem.isUser := false;
                       ChatHistoryItem.text := Some "look";
                       ChatHistoryItem.images := Some [Echo.imageA] |};
                    Echo.empty_text_item ])
           (v2:=map seed_turn
                  [ {| ChatHistoryItem.isUser := false;
                       ChatHistoryItem.text := Some "look";
                       ChatHistoryItem.images := Some [Echo.imageA] |};
                    Echo.empty_text_item ])
           eq_refl eq_refl eq_refl).
Defined.

Lemma absent_and_empty_inputs_agree_witness :
  sendMessage Echo.sdk "hi" None Echo.model_ready
  = sendMessage Echo.sdk "hi"
      (Some {| SendMessageOptions.images := None;
               SendMessageOptions.onResponseChunk := None |})
      Echo.model_ready.
Proof.
  destruct (absent_and_empty_inputs_agree Echo.sdk (U:=list string) "hi" None
              Echo.model_ready) as (_ & _ & Hnone & _).
  apply Hnone. reflexivity.
Defined.

Lemma nothing_happens_before_initModel_witness :
  run Echo.sdk [GetChatHistory; InitChat None; SendMessage "hi" None]
    Echo.fresh
  = Echo.fresh.
Proof.
  apply (nothing_happens_before_initModel Echo.sdk Echo.fresh eq_refl).
  repeat constructor; discriminate.
Defined.
